(** * ASIC Gazette scraper: table resolution, row extraction, dynamic headers

    A shallow embedding of the extraction core of [mainGazzette2021M.py]
    (class [ASICGazetteScraper]) and the proofs of its specified properties.

    Modelling conventions.
    - A Python [str] is a [string]; its characters are 8-bit code points, so
      the no-break space U+00A0 is the character 160 and [str.isspace] is
      restricted to the code points below 256.
    - A Python [dict] with [str] keys is a [gmap string _]; dictionary
      equality is extensional, as [==] on dicts is.
    - The Python [set] [all_columns_found] is a duplicate-free list, the order
      of the list being the iteration order of the set.
    - Every query on a Selenium element ([find_elements], [.text],
      [get_attribute], [is_displayed]) may raise; it returns an [exc].
    - [urllib.parse.urljoin] is a parameter of the development.
    - [year_match_count / total_gazette_links * 100] is computed over the
      rationals [Q].  The source computes it in binary64 floating point;
      [selects_binary64] does the same with the IEEE 754 operations of
      [SpecFloat], and [selects_binary64_agrees] checks that the two tests
      give the same answer for all counts up to 200 links. *)

From Stdlib Require Import Ascii QArith Lqa.
From Stdlib Require String DecimalString DecimalNat.
From Corelib Require SpecFloat.
From stdpp Require Import base option list sorting strings gmap.

(** ** Exceptions *)

Inductive exc (A : Type) : Type :=
  | Val (a : A)
  | Exc.
Arguments Val {A} a.
Arguments Exc {A}.

#[global] Instance exc_ret : MRet exc := λ A a, Val a.
#[global] Instance exc_bind : MBind exc := λ A B f m,
  match m with Val a => f a | Exc => Exc end.

(** [[x for x in l if p(x)]] where [p] may raise. *)
Fixpoint filterE {A} (p : A → exc bool) (l : list A) : exc (list A) :=
  match l with
  | [] => mret []
  | x :: l' =>
      b ← p x;
      r ← filterE p l';
      mret (if b : bool then x :: r else r)
  end.

(** [for x in l: acc = f(acc, x)] where the body may raise. *)
Fixpoint foldE {A B} (f : B → A → exc B) (acc : B) (l : list A) : exc B :=
  match l with
  | [] => mret acc
  | x :: l' => acc' ← f acc x; foldE f acc' l'
  end.

(** [[f(x) for x in l]] where [f] may raise. *)
Fixpoint mapE {A B} (f : A → exc B) (l : list A) : exc (list B) :=
  match l with
  | [] => mret []
  | x :: l' => y ← f x; r ← mapE f l'; mret (y :: r)
  end.

(** ** Python string primitives *)

Module Py.

(** Truth value of a [str]: the empty string is false. *)
Definition truthy (s : string) : bool :=
  match s with EmptyString => false | String _ _ => true end.

(** [str.isspace] on one character, for the code points below 256. *)
Definition isspace (c : ascii) : bool :=
  let n := N_of_ascii c in
  ((9 <=? n) && (n <=? 13) || (28 <=? n) && (n <=? 32)
   || (n =? 133) || (n =? 160))%N.

(** [s.startswith(p)]. *)
Definition startswith (p s : string) : bool := String.prefix p s.

(** [s.endswith(p)]. *)
Definition endswith (p s : string) : bool :=
  String.prefix (String.rev p) (String.rev s).

(** [sub in s]. *)
Fixpoint contains (sub s : string) : bool :=
  String.prefix sub s ||
  match s with
  | EmptyString => false
  | String _ s' => contains sub s'
  end.

(** [s.replace(old, new)] for a non-empty [old]: the occurrences are
    replaced from the left, without overlap.  [skip] counts the characters
    of a matched occurrence that are still to be dropped. *)
Fixpoint replace_go (old new : string) (skip : nat) (s : string) : string :=
  match s with
  | EmptyString => EmptyString
  | String c s' =>
      match skip with
      | S k => replace_go old new k s'
      | O =>
          if String.prefix old s
          then new +:+ replace_go old new (String.length old - 1) s'
          else String c (replace_go old new 0 s')
      end
  end.
Definition replace (old new s : string) : string := replace_go old new 0 s.

(** [s.split()]: the maximal runs of non-whitespace characters. *)
Fixpoint split_go (word s : string) : list string :=
  match s with
  | EmptyString => if truthy word then [word] else []
  | String c s' =>
      if isspace c
      then (if truthy word then [word] else []) ++ split_go EmptyString s'
      else split_go (word +:+ String c EmptyString) s'
  end.
Definition split (s : string) : list string := split_go EmptyString s.

(** [sep.join(l)]. *)
Definition join (sep : string) (l : list string) : string :=
  String.concat sep l.

(** [s.strip()]. *)
Fixpoint lstrip (s : string) : string :=
  match s with
  | EmptyString => EmptyString
  | String c s' => if isspace c then lstrip s' else s
  end.
Definition rstrip (s : string) : string := String.rev (lstrip (String.rev s)).
Definition strip (s : string) : string := rstrip (lstrip s).

(** [s[-n:]]: the last [n] characters, all of [s] when it is shorter. *)
Definition last_chars (n : nat) (s : string) : string :=
  String.substring (String.length s - n) n s.

(** [str(n)] for a non-negative integer, as an f-string prints it. *)
Definition str_of_nat (n : nat) : string :=
  DecimalString.NilEmpty.string_of_uint (Nat.to_uint n).

(** [sorted(l)] on strings: ascending in the code-point order. *)
Definition sorted (l : list string) : list string :=
  merge_sort String.le l.

(** A [set] of strings with its iteration order; [s.add(x)]. *)
Definition set_add (x : string) (s : list string) : list string :=
  if decide (x ∈ s) then s else s ++ [x].

End Py.

(** ** The page as Selenium shows it *)

Record Link := {
  link_text : exc string;                (* link.text *)
  link_href : exc (option string)        (* link.get_attribute("href") *)
}.

Record Cell := {
  cell_text : exc string;                (* cell.text *)
  cell_links : exc (list Link)           (* cell.find_elements(By.TAG_NAME, "a") *)
}.

Record Row := {
  row_ths : exc (list Cell);             (* row.find_elements(By.TAG_NAME, "th") *)
  row_tds : exc (list Cell)              (* row.find_elements(By.TAG_NAME, "td") *)
}.

Record Table := {
  is_displayed : exc bool;               (* table.is_displayed() *)
  table_trs : exc (list Row)             (* table.find_elements(By.TAG_NAME, "tr") *)
}.

(** [driver.find_elements(By.TAG_NAME, "table")]. *)
Definition Driver : Type := exc (list Table).

Record ScraperConfig := {
  target_url : string;
  csv_filename : string;
  base_url : string
}.

(** ** The scraper *)

Section Scraper.

(** [urllib.parse.urljoin] and [self.config]. *)
Variable urljoin : string → string → string.
Variable config : ScraperConfig.

(** The no-break space, U+00A0. *)
Definition nbsp : string := String (ascii_of_nat 160) EmptyString.

(** [_resolve_url] *)
Definition _resolve_url (url : string) : string :=
  if negb (Py.truthy url) then ""
  else if Py.startswith "http" url then url
  else urljoin (base_url config) url.

(** [_clean_text] *)
Definition _clean_text (text : string) : string :=
  if negb (Py.truthy text) then ""
  else
    let cleaned := Py.replace "&nbsp;" " " (Py.replace nbsp " " text) in
    Py.strip (Py.join " " (Py.split cleaned)).

(** *** [_extract_multiple_links_data] *)

(** The body of [for link in links], on the two lists it appends to. *)
Definition link_step (acc : list string * list string) (link : Link)
  : exc (list string * list string) :=
  let '(titles, urls) := acc in
  text ← link_text link;
  let title := _clean_text text in
  href ← link_href link;
  let titles := if Py.truthy title then titles ++ [title] else titles ++ [""] in
  let urls :=
    match href with
    | Some url =>
        if Py.truthy url then urls ++ [_resolve_url (Py.strip url)]
        else urls ++ [""]
    | None => urls ++ [""]
    end in
  mret (titles, urls).

(** The body of the [try]. *)
Definition extract_links_try (cell : Cell) : exc (list string * list string) :=
  links ← cell_links cell;
  match links with
  | [] =>
      text ← cell_text cell;
      let text_content := _clean_text text in
      if Py.truthy text_content then mret ([text_content], [""])
      else mret ([], [])
  | _ :: _ => foldE link_step ([], []) links
  end.

Definition _extract_multiple_links_data (cell : Cell)
  : list string * list string :=
  match extract_links_try cell with
  | Val r => r
  | Exc => ([], [])
  end.

(** The pair a link stands for in a group, as the specification words it:
    the cleaned text of the link, and its resolved href, the empty string
    standing for an absent or empty href. *)
Definition link_url (href : option string) : string :=
  match href with
  | Some url => if Py.truthy url then _resolve_url (Py.strip url) else ""
  | None => ""
  end.
Definition read_link (link : Link) : exc (string * string) :=
  text ← link_text link;
  href ← link_href link;
  mret (_clean_text text, link_url href).

(** *** [_store_cell_data]

    The state is the dictionary [result] under construction and the set
    [self.all_columns_found]. *)

Definition store : Type := gmap string string * list string.

(** [result[col] = value; self.all_columns_found.add(col)]; the source
    does the two assignments first and the two [add] after, which gives the
    same state. *)
Definition put (col value : string) (st : store) : store :=
  (<[col := value]> st.1, Py.set_add col st.2).

(** The column names of the pair at position [i] of a group. *)
Definition title_col (prefix : string) (i : nat) : string :=
  if (i =? 0)%nat then prefix +:+ "_title"
  else prefix +:+ "_title_" +:+ Py.str_of_nat (i + 1).
Definition url_col (prefix : string) (i : nat) : string :=
  if (i =? 0)%nat then prefix +:+ "_url"
  else prefix +:+ "_url_" +:+ Py.str_of_nat (i + 1).

(** [while len(urls) < len(titles): urls.append("")], run [n] times. *)
Fixpoint pad_urls (n : nat) (urls : list string) : list string :=
  match n with
  | O => urls
  | S k => pad_urls k (urls ++ [""])
  end.

(** [for i, (title, url) in enumerate(zip(titles, urls))], from index [i]. *)
Fixpoint store_pairs (prefix : string) (i : nat)
    (pairs : list (string * string)) (st : store) : store :=
  match pairs with
  | [] => st
  | (title, url) :: rest =>
      let st := put (title_col prefix i) title st in
      let st := put (url_col prefix i) url st in
      store_pairs prefix (S i) rest st
  end.

(** [for i in range(len(titles), len(urls))]: the column is numbered
    [i+1] whatever [i] is. *)
Fixpoint store_rest (prefix : string) (urls : list string)
    (range : list nat) (st : store) : store :=
  match range with
  | [] => st
  | i :: rest =>
      let st := put (prefix +:+ "_url_" +:+ Py.str_of_nat (i + 1)) (urls !!! i) st in
      store_rest prefix urls rest st
  end.

Definition _store_cell_data (prefix : string) (titles urls : list string)
    (st : store) : store :=
  match titles, urls with
  | [], [] =>
      let result := <[prefix +:+ "_url" := ""]> (<[prefix +:+ "_title" := ""]> st.1) in
      (result, Py.set_add (prefix +:+ "_url") (Py.set_add (prefix +:+ "_title") st.2))
  | _, _ =>
      let urls := pad_urls (length titles - length urls) urls in
      let st := store_pairs prefix 0 (zip titles urls) st in
      store_rest prefix urls
        (seq (length titles) (length urls - length titles)) st
  end.

(** *** [_find_correct_table_for_year] *)

(** [l[i]]: an index out of range raises [IndexError]. *)
Definition item {A} (l : list A) (i : nat) : exc A :=
  match l !! i with
  | Some x => Val x
  | None => Exc
  end.

(** The body of [for link in links] of a scored column, on the pair
    [(year_match_count, total_gazette_links)]. *)
Definition score_link (year_suffix : string) (acc : nat * nat) (link : Link)
  : exc (nat * nat) :=
  let '(year_match_count, total_gazette_links) := acc in
  text ← link_text link;
  let link_text := _clean_text text in
  if Py.truthy link_text && Py.contains "/" link_text then
    let total_gazette_links := total_gazette_links + 1 in
    if Py.endswith ("/" +:+ year_suffix) link_text
    then mret (year_match_count + 1, total_gazette_links)
    else mret (year_match_count, total_gazette_links)
  else mret (year_match_count, total_gazette_links).

(** The body of [for row in data_rows[:10]]. *)
Definition score_row (year_suffix : string) (acc : nat * nat) (row : Row)
  : exc (nat * nat) :=
  cells ← row_tds row;
  if 2 <=? length cells then
    asic_cell ← item cells 1;
    links ← cell_links asic_cell;
    acc ← foldE (score_link year_suffix) acc links;
    if 3 <=? length cells then
      business_cell ← item cells 2;
      business_links ← cell_links business_cell;
      foldE (score_link year_suffix) acc business_links
    else mret acc
  else mret acc.

(** [not row.find_elements(By.TAG_NAME, "th")]. *)
Definition is_data_row (row : Row) : exc bool :=
  ths ← row_ths row;
  mret (match ths with [] => true | _ :: _ => false end).

(** The two counters of a table, as the [try] computes them; a table with no
    data row is left with [continue] before anything is counted. *)
Definition table_counts (year_suffix : string) (table : Table)
  : exc (option (nat * nat)) :=
  rows ← table_trs table;
  data_rows ← filterE is_data_row rows;
  match data_rows with
  | [] => mret None
  | _ :: _ =>
      counts ← foldE (score_row year_suffix) (0, 0) (take 10 data_rows);
      mret (Some counts)
  end.

Definition match_percentage (year_match_count total_gazette_links : nat) : Q :=
  if 0 <? total_gazette_links
  then inject_Z (Z.of_nat year_match_count)
       / inject_Z (Z.of_nat total_gazette_links) * 100
  else 0.

(** [match_percentage > 70 and total_gazette_links > 5]. *)
Definition selects (year_match_count total_gazette_links : nat) : bool :=
  match (match_percentage year_match_count total_gazette_links ?= 70)%Q with
  | Gt => 5 <? total_gazette_links
  | _ => false
  end.

(** The same test in binary64, as Python evaluates it: the true division
    of two integers, the product by [100] and the comparison with [70] are
    the IEEE 754 operations, every integer at hand being a float exactly. *)
Definition float_of_nat (n : nat) : SpecFloat.spec_float :=
  SpecFloat.binary_normalize 53 1024 (Z.of_nat n) 0 false.
Definition match_percentage_binary64 (year_match_count total_gazette_links : nat)
  : SpecFloat.spec_float :=
  if 0 <? total_gazette_links
  then SpecFloat.SFmul 53 1024
         (SpecFloat.SFdiv 53 1024 (float_of_nat year_match_count)
                                  (float_of_nat total_gazette_links))
         (float_of_nat 100)
  else float_of_nat 0.
Definition selects_binary64 (year_match_count total_gazette_links : nat) : bool :=
  SpecFloat.SFltb (float_of_nat 70)
    (match_percentage_binary64 year_match_count total_gazette_links)
  && (5 <? total_gazette_links).

(** The two tests agree on every pair of counters [m <= n <= bound]. *)
Definition tests_agree_up_to (bound : nat) : bool :=
  forallb (λ n, forallb (λ m, Bool.eqb (selects_binary64 m n) (selects m n))
                        (seq 0 (S n)))
          (seq 0 (S bound)).

(** [for table_idx, table in enumerate(visible_tables)], with its [return].
    An exception in the body is caught and the loop goes on. *)
Fixpoint select_table (year_suffix : string) (tables : list Table)
  : option Table :=
  match tables with
  | [] => None
  | table :: rest =>
      match table_counts year_suffix table with
      | Val (Some (year_match_count, total_gazette_links)) =>
          if selects year_match_count total_gazette_links then Some table
          else select_table year_suffix rest
      | Val None => select_table year_suffix rest
      | Exc => select_table year_suffix rest
      end
  end.

Definition year_to_table_index : gmap string nat :=
  list_to_map
    [("2020", 0); ("2019", 1); ("2018", 3); ("2017", 4); ("2016", 5);
     ("2015", 6); ("2014", 7); ("2013", 8); ("2012", 9); ("2011", 10)].

(** The function from the point where [visible_tables] is known. *)
Definition find_among (visible_tables : list Table) (year : string)
  : option Table :=
  let year_suffix := Py.last_chars 2 year in
  match select_table year_suffix visible_tables with
  | Some table => Some table
  | None =>
      match year_to_table_index !! year with
      | Some table_idx =>
          if table_idx <? length visible_tables
          then visible_tables !! table_idx
          else None
      | None => None
      end
  end.

Definition _find_correct_table_for_year (driver : Driver) (year : string)
  : option Table :=
  match all_tables ← driver; filterE is_displayed all_tables with
  | Val visible_tables => find_among visible_tables year
  | Exc => None
  end.

(** *** [_extract_row_data]

    The method reads the page, which may raise, and adds to
    [self.all_columns_found], which stays changed when a later step
    raises. *)

Definition SE (A : Type) : Type := list string → exc A * list string.

#[local] Instance SE_ret : MRet SE := λ A a cols, (Val a, cols).
#[local] Instance SE_bind : MBind SE := λ A B f m cols,
  match m cols with
  | (Val a, cols') => f a cols'
  | (Exc, cols') => (Exc, cols')
  end.

Definition lift {A} (e : exc A) : SE A := λ cols, (e, cols).

(** [self.all_columns_found.add(col)] *)
Definition add_column (col : string) : SE unit :=
  λ cols, (Val tt, Py.set_add col cols).

(** [self._store_cell_data(result, prefix, titles, urls)] *)
Definition store_cell (prefix : string) (titles urls : list string)
    (result : gmap string string) : SE (gmap string string) :=
  λ cols,
    let st := _store_cell_data prefix titles urls (result, cols) in
    (Val st.1, st.2).

(** The full text of an Other/Notes cell against the titles of its links:
    [if text and not titles: titles = [text]
     elif text and titles: titles[0] = text]. *)
Definition text_over_titles (text : string) (titles : list string)
  : list string :=
  if Py.truthy text then
    match titles with
    | [] => [text]
    | _ :: _ => <[0 := text]> titles
    end
  else titles.

Definition extract_row_try (row : Row) (year : string)
  : SE (option (gmap string string)) :=
  cells ← lift (row_tds row);
  if length cells <? 4 then mret None
  else
    cell0 ← lift (item cells 0);
    text0 ← lift (cell_text cell0);
    let date := _clean_text text0 in
    let result : gmap string string := <["Date" := date]> (<["Year" := year]> ∅) in
    _ ← add_column "Year";
    _ ← add_column "Date";
    cell1 ← lift (item cells 1);
    let '(asic_titles, asic_urls) := _extract_multiple_links_data cell1 in
    result ← store_cell "ASIC_Gazette" asic_titles asic_urls result;
    cell2 ← lift (item cells 2);
    let '(business_titles, business_urls) := _extract_multiple_links_data cell2 in
    result ← store_cell "Business_Gazette" business_titles business_urls result;
    if length cells =? 4 then
      cell3 ← lift (item cells 3);
      let '(notes_titles, notes_urls) := _extract_multiple_links_data cell3 in
      text3 ← lift (cell_text cell3);
      let notes_text := _clean_text text3 in
      let notes_titles := text_over_titles notes_text notes_titles in
      result ← store_cell "Other_Notes" notes_titles notes_urls result;
      mret (Some result)
    else if 5 <=? length cells then
      cell3 ← lift (item cells 3);
      let '(other_titles, other_urls) := _extract_multiple_links_data cell3 in
      text3 ← lift (cell_text cell3);
      let other_text := _clean_text text3 in
      cell4 ← lift (item cells 4);
      let '(notes_titles, notes_urls) := _extract_multiple_links_data cell4 in
      text4 ← lift (cell_text cell4);
      let notes_text := _clean_text text4 in
      let other_titles := text_over_titles other_text other_titles in
      result ← store_cell "Other" other_titles other_urls result;
      let notes_titles := text_over_titles notes_text notes_titles in
      result ← store_cell "Notes" notes_titles notes_urls result;
      mret (Some result)
    else mret (Some result).

(** The record of the row, or [None], and [self.all_columns_found] after the
    call. *)
Definition _extract_row_data (row : Row) (year : string) (cols : list string)
  : option (gmap string string) * list string :=
  match extract_row_try row year cols with
  | (Val r, cols') => (r, cols')
  | (Exc, cols') => (None, cols')
  end.

(** The state once the cells 0, 1 and 2 of a row are stored, and the storing
    of an Other/Notes cell of full text [text] under [prefix]: the steps
    [extract_row_try] goes through, named to state its properties. *)
Definition row_head (year text0 : string) (cell1 cell2 : Cell)
    (cols : list string) : store :=
  let g1 := _extract_multiple_links_data cell1 in
  let g2 := _extract_multiple_links_data cell2 in
  _store_cell_data "Business_Gazette" g2.1 g2.2
    (_store_cell_data "ASIC_Gazette" g1.1 g1.2
       (<["Date" := _clean_text text0]> (<["Year" := year]> ∅),
        Py.set_add "Date" (Py.set_add "Year" cols))).
Definition store_text_cell (prefix : string) (cell : Cell) (text : string)
    (st : store) : store :=
  let g := _extract_multiple_links_data cell in
  _store_cell_data prefix (text_over_titles (_clean_text text) g.1) g.2 st.

(** *** [_generate_dynamic_headers], on [self.all_columns_found] *)

Definition _generate_dynamic_headers (all_columns_found : list string)
  : list string :=
  let ordered_headers := ["Year"; "Date"] in
  let asic_columns :=
    Py.sorted (filter (λ col, Py.startswith "ASIC_Gazette" col) all_columns_found) in
  let business_columns :=
    Py.sorted (filter (λ col, Py.startswith "Business_Gazette" col) all_columns_found) in
  let other_columns :=
    Py.sorted (filter (λ col, Py.startswith "Other_Notes" col) all_columns_found) in
  let other_only_columns :=
    Py.sorted (filter (λ col, Py.startswith "Other" col
                              && negb (Py.startswith "Other_Notes" col))
                 all_columns_found) in
  let notes_columns :=
    Py.sorted (filter (λ col, Py.startswith "Notes" col) all_columns_found) in
  let ordered_headers := ordered_headers ++ asic_columns in
  let ordered_headers := ordered_headers ++ business_columns in
  let ordered_headers := ordered_headers ++ other_only_columns in
  let ordered_headers := ordered_headers ++ notes_columns in
  let ordered_headers := ordered_headers ++ other_columns in
  let remaining_columns :=
    Py.sorted (filter (λ col, col ∉ ordered_headers) all_columns_found) in
  ordered_headers ++ remaining_columns.

(** *** [_normalize_row_data] *)

Definition _normalize_row_data (row_data : gmap string string)
    (headers : list string) : gmap string string :=
  foldl (λ normalized header,
           <[header := default "" (row_data !! header)]> normalized)
        ∅ headers.

End Scraper.

(** Registering keys one after the other, from the empty set. *)
Definition register_all (keys : list string) : list string :=
  foldl (λ cols key, Py.set_add key cols) [] keys.

(** ** The score of a candidate table, as the specification words it *)

(** The table is the one the loop of [select_table] returns at. *)
Definition table_selected (year_suffix : string) (table : Table) : bool :=
  match table_counts year_suffix table with
  | Val (Some (year_match_count, total_gazette_links)) =>
      selects year_match_count total_gazette_links
  | _ => false
  end.

(** The cleaned texts of the links of a cell. *)
Definition cell_link_texts (cell : Cell) : exc (list string) :=
  links ← cell_links cell;
  mapE (λ link, text ← link_text link; mret (_clean_text text)) links.

(** The cleaned link texts of the link-bearing columns of a row: those of
    the cell of index 1, then those of the cell of index 2 when the row has
    at least 3 cells; a row of fewer than 2 cells has none. *)
Definition row_link_texts (row : Row) : exc (list string) :=
  cells ← row_tds row;
  match cells with
  | _ :: cell1 :: rest =>
      texts1 ← cell_link_texts cell1;
      match rest with
      | cell2 :: _ => texts2 ← cell_link_texts cell2; mret (texts1 ++ texts2)
      | [] => mret texts1
      end
  | _ => mret []
  end.

(** The link texts of the sample of a table: its first 10 non-header rows. *)
Definition sampled_link_texts (table : Table) : exc (list string) :=
  rows ← table_trs table;
  data_rows ← filterE is_data_row rows;
  texts ← mapE row_link_texts (take 10 data_rows);
  mret (concat texts).

(** [totalLinks]: the sampled links whose text contains a slash;
    [matchedLinks]: those of them whose text ends with the slash and the
    suffix. *)
Definition total_links (texts : list string) : nat :=
  length (filter (λ text, Py.contains "/" text) texts).
Definition matched_links (suffix : string) (texts : list string) : nat :=
  length (filter (λ text, Py.contains "/" text
                          ∧ Py.endswith ("/" +:+ suffix) text) texts).

(** A candidate qualifies for a partition key: [matchedLinks / totalLinks]
    is above 0.70 and [totalLinks] is above 5, the suffix being the last two
    characters of the key.  A table that cannot be read does not qualify. *)
Definition qualifies (year : string) (table : Table) : Prop :=
  match sampled_link_texts table with
  | Val texts =>
      let matched := matched_links (Py.last_chars 2 year) texts in
      let total := total_links texts in
      (7 # 10 < inject_Z (Z.of_nat matched) / inject_Z (Z.of_nat total))%Q
      ∧ 5 < total
  | Exc => False
  end.

(** A record holds the base pair of columns of a group. *)
Definition has_group (prefix : string) (record : gmap string string) : Prop :=
  is_Some (record !! (prefix +:+ "_title"))
  ∧ is_Some (record !! (prefix +:+ "_url")).

(** The rule of the Other/Notes cells, as the specification words it, for a
    cell of cleaned full text [text] and of link group [group], stored under
    [prefix] in [record].  With a non-empty text: an empty group leaves the
    text as the sole title, with an empty url; a non-empty group has the title
    of its first element replaced by the text, the titles of its later
    elements and all its urls being kept. *)
Definition text_rule (prefix text : string)
    (group : list string * list string) (record : gmap string string) : Prop :=
  text ≠ "" →
  match group.1 with
  | [] =>
      record !! (prefix +:+ "_title") = Some text
      ∧ record !! (prefix +:+ "_url") = Some ""
      ∧ ∀ i, 1 ≤ i →
          record !! title_col prefix i = None
          ∧ record !! url_col prefix i = None
  | _ :: _ =>
      record !! (prefix +:+ "_title") = Some text
      ∧ (∀ i title, 1 ≤ i → group.1 !! i = Some title →
           record !! title_col prefix i = Some title)
      ∧ (∀ i url, group.2 !! i = Some url →
           record !! url_col prefix i = Some url)
  end.

(** A block of the header list, as the specification words it: the
    registered keys that satisfy [P], each once, in ascending order. *)
Definition sorted_block (keys : list string) (P : string → Prop)
    (block : list string) : Prop :=
  Sorted String.le block ∧ NoDup block ∧ ∀ k, k ∈ block ↔ k ∈ keys ∧ P k.

(** ** A page fragment to run the definitions on *)

(** [urljoin] of a base with no path and an absolute path. *)
Definition urljoin_concat (base url : string) : string := base +:+ url.

Definition asic_config : ScraperConfig :=
  {| target_url := "https://asic.gov.au/gazettes";
     csv_filename := "asic_gazettes.csv";
     base_url := "https://asic.gov.au" |}.

Definition a_link (text href : string) : Link :=
  {| link_text := Val text; link_href := Val (Some href) |}.
Definition a_cell (text : string) (links : list Link) : Cell :=
  {| cell_text := Val text; cell_links := Val links |}.
Definition a_row (cells : list Cell) : Row :=
  {| row_ths := Val []; row_tds := Val cells |}.
Definition a_table (rows : list Row) : Table :=
  {| is_displayed := Val true; table_trs := Val rows |}.

(** A row of four cells: a date, a gazette link, a plain text, and a note
    with one link. *)
Definition row_2015 : Row :=
  a_row [a_cell "01/03/2015" [];
         a_cell "15/123" [a_link "15/123" "/gaz/123"];
         a_cell "N/A" [];
         a_cell "Correction notice" [a_link "see doc" "/doc/5"]].

Definition record_2015 : gmap string string :=
  list_to_map
    [("Year", "2015"); ("Date", "01/03/2015");
     ("ASIC_Gazette_title", "15/123");
     ("ASIC_Gazette_url", "https://asic.gov.au/gaz/123");
     ("Business_Gazette_title", "N/A"); ("Business_Gazette_url", "");
     ("Other_Notes_title", "Correction notice");
     ("Other_Notes_url", "https://asic.gov.au/doc/5")].

(** The same row when the links of its second cell cannot be read. *)
Definition row_2015_stale : Row :=
  a_row [a_cell "01/03/2015" [];
         {| cell_text := Val "15/123"; cell_links := Exc |};
         a_cell "N/A" [];
         a_cell "Correction notice" [a_link "see doc" "/doc/5"]].

Definition record_2015_stale : gmap string string :=
  list_to_map
    [("Year", "2015"); ("Date", "01/03/2015");
     ("ASIC_Gazette_title", ""); ("ASIC_Gazette_url", "");
     ("Business_Gazette_title", "N/A"); ("Business_Gazette_url", "");
     ("Other_Notes_title", "Correction notice");
     ("Other_Notes_url", "https://asic.gov.au/doc/5")].

(** A row of five cells. *)
Definition row_2010 : Row :=
  a_row [a_cell "05/01/2010" [];
         a_cell "A01/10" [a_link "A01/10" "/gaz/a01"];
         a_cell "B01/10" [a_link "B01/10" "/gaz/b01"];
         a_cell "Other text" [a_link "first" "/o/1"; a_link "second" "/o/2"];
         a_cell "" []].

(** Tables of one gazette link a row, under a header row. *)
Definition header_row : Row :=
  {| row_ths := Val [a_cell "Date" []; a_cell "ASIC Gazette" []];
     row_tds := Val [] |}.
Definition gazette_row (text : string) : Row :=
  a_row [a_cell "01/01" []; a_cell text [a_link text "/gazette"];
         a_cell "" []; a_cell "" []].
Definition gazette_table (displayed : bool) (texts : list string) : Table :=
  {| is_displayed := Val displayed;
     table_trs := Val (header_row :: (gazette_row <$> texts)) |}.

Definition table_short : Table :=
  gazette_table true ["A01/20"; "A02/20"; "A03/20"].
Definition table_hidden : Table :=
  gazette_table false ["A01/20"; "A02/20"; "A03/20"; "A04/20"; "A05/20";
                       "A06/20"; "A07/20"; "A08/20"].
Definition table_2019 : Table :=
  gazette_table true ["A01/19"; "A02/19"; "A03/19"; "A04/19"; "A05/19";
                      "A06/19"; "A07/19"; "A08/19"].
Definition table_2020 : Table :=
  gazette_table true ["A01/20"; "A02/20"; "A03/20"; "A04/20"; "A05/20";
                      "A06/20"; "A07/20"; "A08/20"; "A51/19"; "A52/19"].
Definition table_2020_late : Table :=
  gazette_table true ["A11/20"; "A12/20"; "A13/20"; "A14/20"; "A15/20";
                      "A16/20"; "A17/20"].

(** Keys as two runs over the same rows may register them. *)
Definition keys_seen : list string :=
  ["Zed"; "Other_Notes_title"; "Other_title"; "Notes_url"; "ASIC_Gazette_url";
   "ASIC_Gazette_title"; "Date"; "Business_Gazette_title_2";
   "Business_Gazette_title_10"; "Other_title"].
Definition keys_seen_again : list string :=
  ["Business_Gazette_title_10"; "Date"; "ASIC_Gazette_title"; "Zed";
   "Notes_url"; "Other_title"; "Business_Gazette_title_2";
   "ASIC_Gazette_url"; "Other_Notes_title"; "Zed"].

(** ** The rest of the pipeline: [_extract_table_data], the third step of
    [scrape_data], and what [save_to_csv] hands to the CSV writer *)

(** [find_element], which raises [NoSuchElementException] when nothing is
    found, and may raise otherwise. *)
Inductive found (A : Type) : Type :=
  | Found (a : A)
  | NoSuchElement
  | Raised.
Arguments Found {A} a.
Arguments NoSuchElement {A}.
Arguments Raised {A}.

Section Pipeline.

Variable urljoin : string → string → string.
Variable config : ScraperConfig.

(** [table.find_element(By.TAG_NAME, "tbody")] followed by
    [tbody.find_elements(By.TAG_NAME, "tr")]: the query of the page that the
    record [Table] does not carry. *)
Variable find_tbody : Table → found (exc (list Row)).

(** The rows [_extract_table_data] goes through: those of the body of the
    table, or without a body the rows of the table that hold no [th]. *)
Definition table_rows (table : Table) : exc (list Row) :=
  match find_tbody table with
  | Found trs => trs
  | NoSuchElement =>
      rows ← table_trs table;
      filterE is_data_row rows
  | Raised => Exc
  end.

(** [for row_idx, row in enumerate(rows)]: a record is appended when
    [row_data] is true, that is neither [None] nor an empty dictionary. *)
Fixpoint extract_rows (rows : list Row) (year : string)
    (data_rows : list (gmap string string)) (cols : list string)
  : list (gmap string string) * list string :=
  match rows with
  | [] => (data_rows, cols)
  | row :: rest =>
      let '(row_data, cols) := _extract_row_data urljoin config row year cols in
      match row_data with
      | Some record =>
          if decide (record = ∅) then extract_rows rest year data_rows cols
          else extract_rows rest year (data_rows ++ [record]) cols
      | None => extract_rows rest year data_rows cols
      end
  end.

(** [_extract_table_data]: the records of the table and
    [self.all_columns_found] after the call. *)
Definition _extract_table_data (table : Table) (year : string)
    (cols : list string) : list (gmap string string) * list string :=
  match table_rows table with
  | Val rows => extract_rows rows year [] cols
  | Exc => ([], cols)
  end.

(** The years [scrape_data] knows, in the order it tries them. *)
Definition known_years : list string :=
  ["2020"; "2019"; "2018"; "2017"; "2016"; "2015"; "2014"; "2013"; "2012";
   "2011"].

(** [any(year_str in text for year_str in [...])]: the test that keeps an
    accordion button. *)
Definition mentions_year (text : string) : bool :=
  existsb (λ year_str, Py.contains year_str text) known_years.

(** The year of a section: the first known year its text contains, and
    ["Unknown"] when it contains none. *)
Fixpoint first_year_in (years : list string) (year_text : string) : string :=
  match years with
  | [] => "Unknown"
  | potential_year :: rest =>
      if Py.contains potential_year year_text then potential_year
      else first_year_in rest year_text
  end.
Definition year_of_section (year_text : string) : string :=
  first_year_in known_years year_text.

(** The body of [for i, (btn, year_text) in enumerate(expanded_sections)], on
    [self.all_data] and [self.all_columns_found]; the page is not touched
    in this step, so the driver answers the same at every turn. *)
Definition process_section (driver : Driver) (year_text : string)
    (st : list (gmap string string) * list string)
  : list (gmap string string) * list string :=
  let year := year_of_section year_text in
  match _find_correct_table_for_year driver year with
  | Some table =>
      let '(year_data, cols) := _extract_table_data table year st.2 in
      match year_data with
      | [] => (st.1, cols)
      | _ :: _ => (st.1 ++ year_data, cols)
      end
  | None => st
  end.
Definition process_sections (driver : Driver) (year_texts : list string)
    (st : list (gmap string string) * list string)
  : list (gmap string string) * list string :=
  foldl (λ st year_text, process_section driver year_text st) st year_texts.

(** [save_to_csv] up to the writing of the file: nothing when there is no
    data, and otherwise the headers and the normalized rows given to
    [csv.DictWriter]. *)
Definition csv_content (data : list (gmap string string)) (cols : list string)
  : option (list string * list (gmap string string)) :=
  match data with
  | [] => None
  | _ :: _ =>
      let headers := _generate_dynamic_headers cols in
      Some (headers, (λ row, _normalize_row_data row headers) <$> data)
  end.

End Pipeline.

(** The invariant between a record under construction and
    [self.all_columns_found]: every key of the record is registered. *)
Definition tracked (st : store) : Prop :=
  ∀ k, is_Some (st.1 !! k) → k ∈ st.2.

(** What a step does to the record and to [self.all_columns_found]: the
    set only grows, keeps its elements distinct, and holds every key the step
    adds to the record. *)
Definition registers (st st' : store) : Prop :=
  (∀ k, k ∈ st.2 → k ∈ st'.2)
  ∧ (NoDup st.2 → NoDup st'.2)
  ∧ (∀ k, is_Some (st'.1 !! k) → is_Some (st.1 !! k) ∨ k ∈ st'.2).

(** The same for a step of [extract_row_try], on the set alone. *)
Definition grows {A} (m : SE A) : Prop :=
  ∀ cols, (∀ k, k ∈ cols → k ∈ (m cols).2)
          ∧ (NoDup cols → NoDup (m cols).2).

(** A page of two tables with a body each, for the years 2020 and 2019. *)
Definition page_tbody (table : Table) : found (exc (list Row)) :=
  match table_trs table with
  | Val (_ :: rows) => Found (Val rows)
  | _ => NoSuchElement
  end.
Definition table_rows_2020 : Table :=
  {| is_displayed := Val true;
     table_trs := Val [header_row; row_2010; a_row [a_cell "short" []]; row_2015] |}.

(** * Properties *)

(** ** Column names *)

Lemma str_of_nat_inj n m : Py.str_of_nat n = Py.str_of_nat m → n = m.
Proof.
  unfold Py.str_of_nat. intros H.
  apply DecimalNat.Unsigned.to_uint_inj.
  assert (Some (Nat.to_uint n) = Some (Nat.to_uint m)) as [= ->]; [|done].
  by rewrite <- !DecimalString.NilEmpty.usu, H.
Qed.

Lemma append_inv_head p s1 s2 : p +:+ s1 = p +:+ s2 → s1 = s2.
Proof. induction p as [|c p IH]; simpl; [done|]. intros [= H]. auto. Qed.

Lemma prefix_append p s : String.prefix p (p +:+ s) = true.
Proof.
  induction p as [|c p IH]; simpl; [by destruct s|].
  destruct (ascii_dec c c); [done|congruence].
Qed.

Lemma title_col_inj p i j : title_col p i = title_col p j → i = j.
Proof.
  unfold title_col. destruct i, j; simpl; intros H; [done|..];
    apply append_inv_head in H; try discriminate.
  injection H as H. apply str_of_nat_inj in H. lia.
Qed.

Lemma url_col_inj p i j : url_col p i = url_col p j → i = j.
Proof.
  unfold url_col. destruct i, j; simpl; intros H; [done|..];
    apply append_inv_head in H; try discriminate.
  injection H as H. apply str_of_nat_inj in H. lia.
Qed.

Lemma title_col_url_col p i j : title_col p i ≠ url_col p j.
Proof.
  unfold title_col, url_col. intros H.
  destruct i, j; simpl in H; apply append_inv_head in H; discriminate.
Qed.

Lemma title_col_prefix p i : String.prefix p (title_col p i) = true.
Proof. unfold title_col. destruct (i =? 0)%nat; apply prefix_append. Qed.

Lemma url_col_prefix p i : String.prefix p (url_col p i) = true.
Proof. unfold url_col. destruct (i =? 0)%nat; apply prefix_append. Qed.

Lemma url_col_numbered p i : i ≠ 0 → p +:+ "_url_" +:+ Py.str_of_nat (i + 1) = url_col p i.
Proof. unfold url_col. by destruct i. Qed.

Lemma title_col_not_numbered_url p i s : title_col p i ≠ p +:+ "_url_" +:+ s.
Proof.
  unfold title_col. intros H.
  destruct i; simpl in H; apply append_inv_head in H; discriminate.
Qed.

(** ** [_store_cell_data] *)

Lemma pad_urls_replicate n urls : pad_urls n urls = urls ++ replicate n "".
Proof.
  revert urls. induction n as [|n IH]; intros urls; simpl.
  - by rewrite app_nil_r.
  - by rewrite IH, <- app_assoc.
Qed.

Lemma store_pairs_other p pairs i st k :
  (∀ j, j < length pairs → k ≠ title_col p (i + j) ∧ k ≠ url_col p (i + j)) →
  (store_pairs p i pairs st).1 !! k = st.1 !! k.
Proof.
  revert i st. induction pairs as [|[t u] pairs IH]; intros i st Hk; simpl; [done|].
  rewrite IH.
  - destruct (Hk 0) as [Ht Hu]; [simpl; lia|].
    rewrite Nat.add_0_r in Ht, Hu. simpl.
    by rewrite !lookup_insert_ne.
  - intros j Hj. replace (S i + j) with (i + S j) by lia.
    apply Hk. simpl. lia.
Qed.

Lemma store_pairs_lookup p pairs i st j t u :
  pairs !! j = Some (t, u) →
  (store_pairs p i pairs st).1 !! title_col p (i + j) = Some t ∧
  (store_pairs p i pairs st).1 !! url_col p (i + j) = Some u.
Proof.
  revert i st j. induction pairs as [|[t' u'] pairs IH]; intros i st j Hj; [done|].
  destruct j as [|j]; simpl in Hj |- *.
  - injection Hj as -> ->. rewrite Nat.add_0_r. split.
    + rewrite store_pairs_other.
      * simpl. rewrite lookup_insert_ne by apply not_eq_sym, title_col_url_col.
        by rewrite lookup_insert_eq.
      * intros j _. split; [|apply title_col_url_col].
        intros ?%title_col_inj. lia.
    + rewrite store_pairs_other.
      * simpl. by rewrite lookup_insert_eq.
      * intros j _. split; [apply not_eq_sym, title_col_url_col|].
        intros ?%url_col_inj. lia.
  - replace (i + S j) with (S i + j) by lia. by apply IH.
Qed.

Lemma store_rest_other p urls range st k :
  (∀ j, j ∈ range → k ≠ p +:+ "_url_" +:+ Py.str_of_nat (j + 1)) →
  (store_rest p urls range st).1 !! k = st.1 !! k.
Proof.
  revert st. induction range as [|i range IH]; intros st Hk; simpl; [done|].
  rewrite IH.
  - simpl. rewrite lookup_insert_ne; [done|].
    apply not_eq_sym, Hk. by left.
  - intros j Hj. apply Hk. by right.
Qed.

Lemma store_rest_lookup p urls range st j :
  NoDup range → j ∈ range →
  (store_rest p urls range st).1 !! (p +:+ "_url_" +:+ Py.str_of_nat (j + 1))
  = Some (urls !!! j).
Proof.
  revert st. induction range as [|i range IH]; intros st Hnd Hj; [by inversion Hj|].
  apply NoDup_cons in Hnd as [Hi Hnd]. simpl.
  apply elem_of_cons in Hj as [->|Hj]; [|by apply IH].
  rewrite store_rest_other.
  - simpl. by rewrite lookup_insert_eq.
  - intros j Hj H. apply append_inv_head in H. injection H as H.
    apply str_of_nat_inj in H. assert (i = j) as -> by lia. done.
Qed.

(** What a group with at least one title leaves in the record: the title and
    the url at position [i] under the columns of position [i], the urls
    padded with empty strings up to the number of titles, and every other
    column as it was. *)
Lemma store_cell_data_lookup p titles urls st :
  titles ≠ [] →
  let urls' := urls ++ replicate (length titles - length urls) "" in
  let result := (_store_cell_data p titles urls st).1 in
  (∀ i t, titles !! i = Some t → result !! title_col p i = Some t) ∧
  (∀ i u, urls' !! i = Some u → result !! url_col p i = Some u) ∧
  (∀ k, (∀ i, i < length titles → k ≠ title_col p i) →
        (∀ i, i < length urls' → k ≠ url_col p i) →
        result !! k = st.1 !! k).
Proof.
  intros Hne urls' result.
  assert (length titles ≤ length urls') as Hlen.
  { unfold urls'. rewrite length_app, length_replicate. lia. }
  assert (result = (store_rest p urls'
            (seq (length titles) (length urls' - length titles))
            (store_pairs p 0 (zip titles urls') st)).1) as ->.
  { unfold result, _store_cell_data, urls'. rewrite pad_urls_replicate.
    destruct titles; [done|]. done. }
  assert (length (zip titles urls') = length titles) as Hzip.
  { rewrite length_zip_with. lia. }
  split; [|split].
  - intros i t Ht.
    rewrite store_rest_other by (intros; apply title_col_not_numbered_url).
    destruct (lookup_lt_is_Some_2 urls' i) as [u Hu].
    { apply lookup_lt_Some in Ht. lia. }
    apply (store_pairs_lookup p _ 0 st i t u).
    apply lookup_zip_with_Some. eauto.
  - intros i u Hu. destruct (decide (i < length titles)) as [Hi|Hi].
    + rewrite store_rest_other.
      * destruct (lookup_lt_is_Some_2 titles i Hi) as [t Ht].
        apply (store_pairs_lookup p _ 0 st i t u).
        apply lookup_zip_with_Some. eauto.
      * intros j [Hj _]%elem_of_seq. rewrite url_col_numbered by (destruct titles; simpl in *; [done|lia]).
        intros ?%url_col_inj. lia.
    + assert (i ≠ 0) by (destruct titles; simpl in *; [done|lia]).
      rewrite <- url_col_numbered by done.
      rewrite store_rest_lookup.
      * f_equal. by apply list_lookup_total_correct.
      * apply NoDup_seq.
      * apply elem_of_seq. apply lookup_lt_Some in Hu. lia.
  - intros k Ht Hu.
    rewrite store_rest_other, store_pairs_other; [done|..].
    + intros j Hj. simpl. split; [apply Ht|apply Hu]; lia.
    + intros j [Hj1 Hj2]%elem_of_seq.
      rewrite url_col_numbered by (destruct titles; simpl in *; [done|lia]).
      apply Hu. lia.
Qed.

Ltac col_neq :=
  let H := fresh in
  intros H; apply append_inv_head in H; discriminate H.

Lemma title_col_not_1 p i : title_col p i ≠ p +:+ "_title_1".
Proof.
  unfold title_col. destruct i; simpl; [col_neq|].
  intros H. apply append_inv_head in H. injection H as H.
  apply (str_of_nat_inj _ 1) in H. lia.
Qed.

Lemma url_col_not_1 p i : url_col p i ≠ p +:+ "_url_1".
Proof.
  unfold url_col. destruct i; simpl; [col_neq|].
  intros H. apply append_inv_head in H. injection H as H.
  apply (str_of_nat_inj _ 1) in H. lia.
Qed.

(** C3. An empty group writes the two base columns with empty values and
    nothing else; a group of three titles and three urls writes the six
    columns [_title], [_url], [_title_2], [_url_2], [_title_3], [_url_3],
    the title and the url of a position under the columns of that position,
    and nothing else.  The columns are pairwise distinct, so each keeps the
    value written to it. *)
Theorem store_cell_data_empty_and_three prefix t1 t2 t3 u1 u2 u3
    (result : gmap string string) (cols : list string) :
  let none := [(prefix +:+ "_title", ""); (prefix +:+ "_url", "")] in
  let three :=
    [(prefix +:+ "_title", t1); (prefix +:+ "_url", u1);
     (prefix +:+ "_title_2", t2); (prefix +:+ "_url_2", u2);
     (prefix +:+ "_title_3", t3); (prefix +:+ "_url_3", u3)] in
  (_store_cell_data prefix [] [] (result, cols)).1 = list_to_map none ∪ result
  ∧ NoDup none.*1
  ∧ (_store_cell_data prefix [t1; t2; t3] [u1; u2; u3] (result, cols)).1
    = list_to_map three ∪ result
  ∧ NoDup three.*1.
Proof.
  intros none three.
  assert (NoDup none.*1) as Hnd2.
  { unfold none. simpl. repeat (apply NoDup_cons; split);
      rewrite ?elem_of_cons, ?elem_of_nil; [| tauto | constructor].
    intros [H|[]]; revert H; col_neq. }
  assert (NoDup three.*1) as Hnd6.
  { unfold three. simpl. repeat (apply NoDup_cons; split);
      rewrite ?elem_of_cons, ?elem_of_nil; try constructor; try tauto.
    all: intros H; repeat (destruct H as [H|H]; [revert H; col_neq|]); done. }
  split; [|split; [done|split; [|done]]].
  - rewrite (list_to_map_proper _ (reverse none))
      by (done || by rewrite reverse_Permutation).
    simpl. by rewrite <- !insert_union_l, (left_id ∅ _).
  - rewrite (list_to_map_proper _ (reverse three))
      by (done || by rewrite reverse_Permutation).
    simpl. by rewrite <- !insert_union_l, (left_id ∅ _).
Qed.

(** A group with at least one title has its first pair under the base
    columns and writes no column numbered 1, whatever the lengths of the
    two lists. *)
Lemma store_cell_data_first_unsuffixed prefix title titles urls
    (result : gmap string string) (cols : list string) :
  let result' := (_store_cell_data prefix (title :: titles) urls (result, cols)).1 in
  result' !! (prefix +:+ "_title") = Some title
  ∧ result' !! (prefix +:+ "_url") = Some (default "" (head urls))
  ∧ result' !! (prefix +:+ "_title_1") = result !! (prefix +:+ "_title_1")
  ∧ result' !! (prefix +:+ "_url_1") = result !! (prefix +:+ "_url_1").
Proof.
  intros result'.
  destruct (store_cell_data_lookup prefix (title :: titles) urls (result, cols))
    as (Ht & Hu & Hk); [done|].
  fold result' in Ht, Hu, Hk. repeat split.
  - by apply (Ht 0).
  - apply (Hu 0). by destruct urls.
  - apply Hk; intros i _.
    + apply not_eq_sym, title_col_not_1.
    + unfold url_col. destruct i; simpl; col_neq.
  - apply Hk; intros i _.
    + unfold title_col. destruct i; simpl; col_neq.
    + apply not_eq_sym, url_col_not_1.
Qed.

(** C4, at a group of no title and one url: the url is written under the
    column numbered 1 and the base columns are left as they were. *)
Theorem store_cell_data_untitled_url prefix url
    (result : gmap string string) (cols : list string) :
  let result' := (_store_cell_data prefix [] [url] (result, cols)).1 in
  result' = <[prefix +:+ "_url_1" := url]> result
  ∧ result' !! (prefix +:+ "_url_1") = Some url
  ∧ result' !! (prefix +:+ "_url") = result !! (prefix +:+ "_url")
  ∧ result' !! (prefix +:+ "_title") = result !! (prefix +:+ "_title").
Proof.
  intros result'.
  assert (result' = <[prefix +:+ "_url_1" := url]> result) as -> by done.
  split; [done|]. split; [by rewrite lookup_insert_eq|].
  split; (rewrite lookup_insert_ne; [done|col_neq]).
Qed.

(** ** [_extract_multiple_links_data] *)

Section extract_links.
Variable urljoin : string → string → string.
Variable config : ScraperConfig.

Lemma truthy_empty s : Py.truthy s = false → s = "".
Proof. by destruct s. Qed.

Lemma link_step_read_link titles urls link :
  link_step urljoin config (titles, urls) link
  = pair ← read_link urljoin config link;
    mret (titles ++ [pair.1], urls ++ [pair.2]).
Proof.
  unfold link_step, read_link.
  destruct (link_text link) as [text|]; simpl; [|done].
  destruct (link_href link) as [href|]; simpl; [|done].
  f_equal. f_equal.
  - destruct (Py.truthy (_clean_text text)) eqn:E; [done|].
    by rewrite (truthy_empty _ E).
  - unfold link_url. destruct href as [url|]; [|done].
    by destruct (Py.truthy url).
Qed.

Lemma foldE_link_step links : ∀ titles urls,
  foldE (link_step urljoin config) (titles, urls) links
  = pairs ← mapE (read_link urljoin config) links;
    mret (titles ++ pairs.*1, urls ++ pairs.*2).
Proof.
  induction links as [|link links IH]; intros titles urls.
  - simpl. by rewrite !app_nil_r.
  - cbn [foldE mapE]. rewrite link_step_read_link.
    destruct (read_link urljoin config link) as [[title url]|]; simpl; [|done].
    rewrite IH.
    destruct (mapE (read_link urljoin config) links) as [pairs|]; simpl; [|done].
    by rewrite <- !app_assoc.
Qed.

Lemma mapE_length {A B} (f : A → exc B) l r : mapE f l = Val r → length r = length l.
Proof.
  revert r. induction l as [|x l IH]; intros r; simpl.
  - by intros [= <-].
  - destruct (f x); simpl; [|done].
    destruct (mapE f l) as [r'|]; simpl; [|done].
    intros [= <-]. simpl. f_equal. by apply IH.
Qed.

(** C10. The two lists always have the same length.  With no link, they are
    empty when the cleaned text of the cell is empty and hold the single pair
    of that text and the empty string otherwise.  With links, they hold one
    pair per link, in order: the cleaned text of the link, empty when it has
    none, and its resolved href, empty when it has none.  When a read of the
    cell or of one of its links raises, both lists are empty. *)
Theorem extract_multiple_links_data_pairs (cell : Cell) :
  let titles := (_extract_multiple_links_data urljoin config cell).1 in
  let urls := (_extract_multiple_links_data urljoin config cell).2 in
  length titles = length urls
  ∧ match cell_links cell with
    | Exc => titles = [] ∧ urls = []
    | Val [] =>
        match cell_text cell with
        | Exc => titles = [] ∧ urls = []
        | Val text =>
            if Py.truthy (_clean_text text)
            then titles = [_clean_text text] ∧ urls = [""]
            else titles = [] ∧ urls = []
        end
    | Val links =>
        match mapE (read_link urljoin config) links with
        | Exc => titles = [] ∧ urls = []
        | Val pairs =>
            titles = pairs.*1 ∧ urls = pairs.*2
            ∧ length pairs = length links
        end
    end.
Proof.
  unfold _extract_multiple_links_data, extract_links_try.
  destruct (cell_links cell) as [[|link links]|]; cbn [mbind exc_bind]; [| |done].
  - destruct (cell_text cell) as [text|]; cbn [mbind exc_bind]; [|done].
    by destruct (Py.truthy (_clean_text text)).
  - rewrite foldE_link_step.
    destruct (mapE (read_link urljoin config) (link :: links)) as [pairs|] eqn:E;
      [|done].
    cbn [mbind exc_bind mret exc_ret fst snd app].
    rewrite !length_fmap. split; [done|].
    split; [done|]. split; [done|]. by apply mapE_length in E.
Qed.

End extract_links.

(** ** [_extract_row_data] *)

Lemma store_cell_data_other_prefix p titles urls st k :
  String.prefix p k = false →
  (_store_cell_data p titles urls st).1 !! k = st.1 !! k.
Proof.
  intros Hk.
  assert (∀ s, k ≠ p +:+ s) as Hne.
  { intros s ->. by rewrite prefix_append in Hk. }
  assert (∀ i, k ≠ title_col p i) as Ht.
  { intros i ->. by rewrite title_col_prefix in Hk. }
  assert (∀ i, k ≠ url_col p i) as Hu.
  { intros i ->. by rewrite url_col_prefix in Hk. }
  unfold _store_cell_data.
  destruct titles as [|t titles], urls as [|u urls];
    [simpl; by rewrite !lookup_insert_ne by (apply not_eq_sym, Hne)|..];
    by rewrite store_rest_other, store_pairs_other by (intros; auto).
Qed.

Lemma store_cell_data_base p titles urls st :
  (titles = [] → urls = []) →
  (_store_cell_data p titles urls st).1 !! (p +:+ "_title")
    = Some (default "" (head titles))
  ∧ (_store_cell_data p titles urls st).1 !! (p +:+ "_url")
    = Some (default "" (head urls)).
Proof.
  intros Hlen. destruct titles as [|t titles].
  - rewrite Hlen by done. simpl.
    rewrite lookup_insert_ne by col_neq. by rewrite !lookup_insert_eq.
  - destruct (store_cell_data_lookup p (t :: titles) urls st) as (Ht & Hu & _); [done|].
    split; [by apply (Ht 0)|]. apply (Hu 0). by destruct urls.
Qed.

Lemma text_rule_store p text titles urls st :
  length titles = length urls →
  (∀ k, String.prefix p k = true → st.1 !! k = None) →
  text_rule p text (titles, urls)
    (_store_cell_data p (text_over_titles text titles) urls st).1.
Proof.
  intros Hlen Hfresh Htext. unfold text_over_titles.
  destruct text as [|c text]; [done|]. cbn [Py.truthy fst snd].
  destruct titles as [|t titles].
  - destruct urls; [|done].
    destruct (store_cell_data_lookup p [String c text] [] st) as (Ht & Hu & Hk); [done|].
    split; [by apply (Ht 0)|]. split; [by apply (Hu 0)|].
    intros i Hi. rewrite !Hk.
    + split; apply Hfresh; [apply title_col_prefix|apply url_col_prefix].
    + intros j Hj H. apply (title_col_url_col p j i). done.
    + intros j Hj ?%url_col_inj. simpl in Hj. lia.
    + intros j Hj ?%title_col_inj. simpl in Hj. lia.
    + intros j Hj H. by apply (title_col_url_col p i j).
  - destruct (store_cell_data_lookup p (String c text :: titles) urls st)
      as (Ht & Hu & _); [done|].
    replace (length (String c text :: titles) - length urls) with 0 in Hu
      by (simpl in *; lia).
    rewrite app_nil_r in Hu.
    change (<[0:=String c text]> (t :: titles)) with (String c text :: titles).
    split; [by apply (Ht 0)|]. split; [|exact Hu].
    intros i title Hi Hl. apply Ht. destruct i; [lia|done].
Qed.

Lemma text_rule_agree p text group (record record' : gmap string string) :
  (∀ k, String.prefix p k = true → record' !! k = record !! k) →
  text_rule p text group record → text_rule p text group record'.
Proof.
  intros Hagree Hrule Htext. specialize (Hrule Htext).
  assert (∀ i, record' !! title_col p i = record !! title_col p i) as Ht
    by (intros; apply Hagree, title_col_prefix).
  assert (∀ i, record' !! url_col p i = record !! url_col p i) as Hu
    by (intros; apply Hagree, url_col_prefix).
  pose proof (Ht 0) as Ht0. pose proof (Hu 0) as Hu0.
  change (title_col p 0) with (p +:+ "_title") in Ht0.
  change (url_col p 0) with (p +:+ "_url") in Hu0.
  destruct group.1; rewrite Ht0; [rewrite Hu0|];
    setoid_rewrite Ht; setoid_rewrite Hu; done.
Qed.
Section extract_row.
Variable urljoin : string → string → string.
Variable config : ScraperConfig.


Lemma extract_multiple_links_data_length cell :
  length (_extract_multiple_links_data urljoin config cell).1
  = length (_extract_multiple_links_data urljoin config cell).2.
Proof.
  unfold _extract_multiple_links_data, extract_links_try.
  destruct (cell_links cell) as [[|link links]|]; cbn [mbind exc_bind]; [| |done].
  - destruct (cell_text cell) as [text|]; cbn [mbind exc_bind]; [|done].
    by destruct (Py.truthy (_clean_text text)).
  - rewrite foldE_link_step.
    destruct (mapE (read_link urljoin config) (link :: links)) as [pairs|]; [|done].
    cbn [mbind exc_bind mret exc_ret fst snd app]. by rewrite !length_fmap.
Qed.

Lemma text_over_titles_paired text cell :
  text_over_titles text (_extract_multiple_links_data urljoin config cell).1 = []
  → (_extract_multiple_links_data urljoin config cell).2 = [].
Proof.
  pose proof (extract_multiple_links_data_length cell) as Hlen.
  unfold text_over_titles.
  destruct (_extract_multiple_links_data urljoin config cell) as [titles urls].
  simpl in *. destruct (Py.truthy text), titles, urls; done.
Qed.

Lemma extract_row_data_cases row year cols :
  match row_tds row with
  | Val (c0 :: c1 :: c2 :: c3 :: rest) =>
      match cell_text c0, cell_text c3 with
      | Val text0, Val text3 =>
          let st := row_head urljoin config year text0 c1 c2 cols in
          match rest with
          | [] =>
              _extract_row_data urljoin config row year cols
              = (Some (store_text_cell urljoin config "Other_Notes" c3 text3 st).1,
                 (store_text_cell urljoin config "Other_Notes" c3 text3 st).2)
          | c4 :: _ =>
              match cell_text c4 with
              | Val text4 =>
                  let st' := store_text_cell urljoin config "Notes" c4 text4
                               (store_text_cell urljoin config "Other" c3 text3 st) in
                  _extract_row_data urljoin config row year cols
                  = (Some st'.1, st'.2)
              | Exc => (_extract_row_data urljoin config row year cols).1 = None
              end
          end
      | _, _ => (_extract_row_data urljoin config row year cols).1 = None
      end
  | _ => (_extract_row_data urljoin config row year cols).1 = None
  end.
Proof.
  unfold _extract_row_data, extract_row_try, row_head, store_text_cell.
  destruct (row_tds row) as [[|c0 [|c1 [|c2 [|c3 rest]]]]|]; try done.
  cbv beta iota zeta delta [mbind SE_bind lift mret SE_ret add_column store_cell
    item length Nat.ltb Nat.leb Nat.eqb lookup list_lookup].
  destruct (cell_text c0) as [text0|]; [|done].
  destruct (_extract_multiple_links_data urljoin config c1) as [t1 u1].
  destruct (_extract_multiple_links_data urljoin config c2) as [t2 u2].
  destruct (_extract_multiple_links_data urljoin config c3) as [t3 u3].
  destruct rest as [|c4 rest].
  - destruct (cell_text c3) as [text3|]; [|done].
    by rewrite <- !surjective_pairing.
  - destruct (cell_text c3) as [text3|]; [|done].
    destruct (_extract_multiple_links_data urljoin config c4) as [t4 u4].
    destruct (cell_text c4) as [text4|]; [|done].
    by rewrite <- !surjective_pairing.
Qed.

Lemma prefix_head c p k :
  String.prefix (String c p) k = true → ∃ k', k = String c k'.
Proof.
  destruct k as [|c' k']; simpl; [done|].
  destruct (ascii_dec c c') as [->|]; [eauto|done].
Qed.

Lemma row_head_lookup year text0 c1 c2 cols k :
  String.prefix "ASIC_Gazette" k = false →
  String.prefix "Business_Gazette" k = false →
  (row_head urljoin config year text0 c1 c2 cols).1 !! k
  = (<["Date" := _clean_text text0]> (<["Year" := year]> ∅) : gmap string string) !! k.
Proof.
  intros H1 H2. unfold row_head.
  by rewrite !store_cell_data_other_prefix.
Qed.

Lemma row_head_groups year text0 c1 c2 cols :
  has_group "ASIC_Gazette" (row_head urljoin config year text0 c1 c2 cols).1
  ∧ has_group "Business_Gazette" (row_head urljoin config year text0 c1 c2 cols).1.
Proof.
  unfold row_head, has_group.
  pose proof (extract_multiple_links_data_length c1) as Hlen1.
  pose proof (extract_multiple_links_data_length c2) as Hlen2.
  destruct (_extract_multiple_links_data urljoin config c1) as [t1 u1].
  destruct (_extract_multiple_links_data urljoin config c2) as [t2 u2].
  cbn [fst snd] in *.
  destruct (store_cell_data_base "ASIC_Gazette" t1 u1
              (<["Date" := _clean_text text0]> (<["Year" := year]> ∅),
               Py.set_add "Date" (Py.set_add "Year" cols))) as [Ht1 Hu1].
  { intros ->. by destruct u1. }
  destruct (store_cell_data_base "Business_Gazette" t2 u2
              (_store_cell_data "ASIC_Gazette" t1 u1
                 (<["Date" := _clean_text text0]> (<["Year" := year]> ∅),
                  Py.set_add "Date" (Py.set_add "Year" cols)))) as [Ht2 Hu2].
  { intros ->. by destruct u2. }
  repeat split.
  - rewrite store_cell_data_other_prefix by done. by rewrite Ht1.
  - rewrite store_cell_data_other_prefix by done. by rewrite Hu1.
  - by rewrite Ht2.
  - by rewrite Hu2.
Qed.

(** No Other/Notes column is in the record before the cells 3 and 4 are
    stored. *)
Lemma row_head_fresh year text0 c1 c2 cols c p k :
  c = "O"%char ∨ c = "N"%char →
  String.prefix (String c p) k = true →
  (row_head urljoin config year text0 c1 c2 cols).1 !! k = None.
Proof.
  intros Hc [k' ->]%prefix_head.
  rewrite row_head_lookup by (destruct Hc as [-> | ->]; done).
  rewrite !lookup_insert_ne by (destruct Hc as [-> | ->]; done).
  done.
Qed.

Lemma store_text_cell_other p cell text st k :
  String.prefix p k = false →
  (store_text_cell urljoin config p cell text st).1 !! k = st.1 !! k.
Proof. intros. unfold store_text_cell. by apply store_cell_data_other_prefix. Qed.

Lemma store_text_cell_group p cell text st :
  has_group p (store_text_cell urljoin config p cell text st).1.
Proof.
  unfold store_text_cell, has_group.
  edestruct store_cell_data_base as [Ht Hu]; [apply text_over_titles_paired|].
  rewrite Ht, Hu. eauto.
Qed.

Lemma store_text_cell_rule p cell text st :
  (∀ k, String.prefix p k = true → st.1 !! k = None) →
  text_rule p (_clean_text text) (_extract_multiple_links_data urljoin config cell)
    (store_text_cell urljoin config p cell text st).1.
Proof.
  intros Hfresh. unfold store_text_cell.
  pose proof (extract_multiple_links_data_length cell) as Hlen.
  destruct (_extract_multiple_links_data urljoin config cell) as [titles urls].
  by apply text_rule_store.
Qed.

Lemma extract_row_data_short row year cols cells :
  row_tds row = Val cells → length cells < 4 →
  (_extract_row_data urljoin config row year cols).1 = None.
Proof.
  intros Htds Hlen. pose proof (extract_row_data_cases row year cols) as Hc.
  rewrite Htds in Hc.
  destruct cells as [|c0 [|c1 [|c2 [|c3 rest]]]]; [done..|].
  simpl in Hlen. lia.
Qed.

Lemma extract_row_data_raise row year cols :
  row_tds row = Exc
  ∨ (∃ cells i cell, row_tds row = Val cells ∧ cells !! i = Some cell
       ∧ (i = 0 ∨ i = 3 ∨ i = 4) ∧ cell_text cell = Exc) →
  (_extract_row_data urljoin config row year cols).1 = None.
Proof.
  pose proof (extract_row_data_cases row year cols) as Hc.
  intros [Htds|(cells & i & cell & Htds & Hi & Hcase & Htext)];
    rewrite Htds in Hc; [done|].
  destruct cells as [|c0 [|c1 [|c2 [|c3 rest]]]]; [done..|].
  destruct (cell_text c0) as [text0|] eqn:H0; [|done].
  destruct (cell_text c3) as [text3|] eqn:H3; [|done].
  destruct Hcase as [-> | [-> | ->]]; simpl in Hi; simplify_eq; try congruence.
  destruct rest as [|c4 rest]; simplify_eq/=.
  by rewrite Htext in Hc.
Qed.

Lemma has_group_store_other q p cell text st :
  String.prefix q (p +:+ "_title") = false →
  String.prefix q (p +:+ "_url") = false →
  has_group p st.1 →
  has_group p (store_text_cell urljoin config q cell text st).1.
Proof.
  intros Ht Hu [H1 H2]. unfold has_group.
  by rewrite !store_text_cell_other.
Qed.

Lemma extract_row_data_Some row year cols record :
  (_extract_row_data urljoin config row year cols).1 = Some record →
  ∃ cells cell0 text0,
    row_tds row = Val cells ∧ 4 ≤ length cells
    ∧ cells !! 0 = Some cell0 ∧ cell_text cell0 = Val text0
    ∧ record !! "Year" = Some year
    ∧ record !! "Date" = Some (_clean_text text0)
    ∧ has_group "ASIC_Gazette" record
    ∧ has_group "Business_Gazette" record
    ∧ (length cells = 4 → has_group "Other_Notes" record)
    ∧ (5 ≤ length cells → has_group "Other" record ∧ has_group "Notes" record).
Proof.
  pose proof (extract_row_data_cases row year cols) as Hc. intros Hsome.
  destruct (row_tds row) as [[|c0 [|c1 [|c2 [|c3 rest]]]]|]; try congruence.
  destruct (cell_text c0) as [text0|] eqn:H0; [|congruence].
  destruct (cell_text c3) as [text3|] eqn:H3; [|congruence].
  exists (c0 :: c1 :: c2 :: c3 :: rest), c0, text0.
  destruct (row_head_groups year text0 c1 c2 cols) as [Ha Hb].
  split; [done|]. split; [simpl; lia|]. split; [done|]. split; [done|].
  cbv zeta in Hc. destruct rest as [|c4 rest].
  - rewrite Hc in Hsome. injection Hsome as <-.
    rewrite !store_text_cell_other, !row_head_lookup by done.
    split; [done|]. split; [done|].
    split; [by apply has_group_store_other|].
    split; [by apply has_group_store_other|].
    split; [intros _; apply store_text_cell_group|].
    simpl. lia.
  - destruct (cell_text c4) as [text4|]; [|congruence].
    rewrite Hc in Hsome. injection Hsome as <-.
    rewrite !store_text_cell_other, !row_head_lookup by done.
    split; [done|]. split; [done|].
    split; [apply has_group_store_other; [done..|]; by apply has_group_store_other|].
    split; [apply has_group_store_other; [done..|]; by apply has_group_store_other|].
    split; [simpl; lia|]. intros _. split.
    + apply has_group_store_other; [done..|]. apply store_text_cell_group.
    + apply store_text_cell_group.
Qed.

(** The base columns of the cells 1 and 2 hold the first pair of their
    groups, the empty string standing for a missing one. *)
Lemma row_head_base year text0 c1 c2 cols :
  let g1 := _extract_multiple_links_data urljoin config c1 in
  let g2 := _extract_multiple_links_data urljoin config c2 in
  let record := (row_head urljoin config year text0 c1 c2 cols).1 in
  record !! "ASIC_Gazette_title" = Some (default "" (head g1.1))
  ∧ record !! "ASIC_Gazette_url" = Some (default "" (head g1.2))
  ∧ record !! "Business_Gazette_title" = Some (default "" (head g2.1))
  ∧ record !! "Business_Gazette_url" = Some (default "" (head g2.2)).
Proof.
  intros g1 g2 record. unfold record, row_head. fold g1 g2.
  pose proof (extract_multiple_links_data_length c1) as Hlen1.
  pose proof (extract_multiple_links_data_length c2) as Hlen2.
  fold g1 in Hlen1. fold g2 in Hlen2.
  destruct (store_cell_data_base "ASIC_Gazette" g1.1 g1.2
              (<["Date" := _clean_text text0]> (<["Year" := year]> ∅),
               Py.set_add "Date" (Py.set_add "Year" cols))) as [Ht1 Hu1].
  { intros H. rewrite H in Hlen1. by destruct g1.2. }
  destruct (store_cell_data_base "Business_Gazette" g2.1 g2.2
              (_store_cell_data "ASIC_Gazette" g1.1 g1.2
                 (<["Date" := _clean_text text0]> (<["Year" := year]> ∅),
                  Py.set_add "Date" (Py.set_add "Year" cols)))) as [Ht2 Hu2].
  { intros H. rewrite H in Hlen2. by destruct g2.2. }
  split; [|split; [|split]].
  - rewrite store_cell_data_other_prefix by done. exact Ht1.
  - rewrite store_cell_data_other_prefix by done. exact Hu1.
  - exact Ht2.
  - exact Hu2.
Qed.

Lemma store_text_cell_base p cell text st :
  let g := _extract_multiple_links_data urljoin config cell in
  let record := (store_text_cell urljoin config p cell text st).1 in
  record !! (p +:+ "_title")
    = Some (default "" (head (text_over_titles (_clean_text text) g.1)))
  ∧ record !! (p +:+ "_url") = Some (default "" (head g.2)).
Proof.
  intros g record. unfold record, store_text_cell.
  apply store_cell_data_base, text_over_titles_paired.
Qed.

Lemma extract_links_raise cell :
  extract_links_try urljoin config cell = Exc →
  _extract_multiple_links_data urljoin config cell = ([], []).
Proof. unfold _extract_multiple_links_data. by intros ->. Qed.

Lemma text_over_no_title text :
  default "" (head (text_over_titles text [])) = text.
Proof. unfold text_over_titles. by destruct text. Qed.

(** A record is yielded as soon as the cells of the row, the text of cell 0
    and the text of the Other/Notes cells are read, whatever the reading of
    the links of any cell does. *)
Lemma extract_row_data_yields row year cols cells cell0 cell3 text0 text3 :
  row_tds row = Val cells → 4 ≤ length cells →
  cells !! 0 = Some cell0 → cell_text cell0 = Val text0 →
  cells !! 3 = Some cell3 → cell_text cell3 = Val text3 →
  (∀ cell4, cells !! 4 = Some cell4 → cell_text cell4 ≠ Exc) →
  is_Some (_extract_row_data urljoin config row year cols).1.
Proof.
  intros Htds Hlen H0 Ht0 H3 Ht3 H4.
  pose proof (extract_row_data_cases row year cols) as Hc. rewrite Htds in Hc.
  destruct cells as [|c0 [|c1 [|c2 [|c3 rest]]]]; try (simpl in Hlen; lia).
  simpl in H0, H3. injection H0 as ->. injection H3 as ->.
  rewrite Ht0, Ht3 in Hc. cbv zeta in Hc.
  destruct rest as [|c4 rest].
  - rewrite Hc. simpl. eauto.
  - specialize (H4 c4 eq_refl).
    destruct (cell_text c4) as [text4|]; [|done].
    rewrite Hc. simpl. eauto.
Qed.

(** The cell whose links could not be read has an empty group in the record
    yielded: an empty title and url for the cells 1 and 2, the cleaned text of
    the cell as title, with an empty url, for an Other/Notes cell. *)
Lemma extract_row_data_absorbs row year cols cells record :
  row_tds row = Val cells →
  (_extract_row_data urljoin config row year cols).1 = Some record →
  (∀ cell, cells !! 1 = Some cell →
     extract_links_try urljoin config cell = Exc →
     record !! "ASIC_Gazette_title" = Some ""
     ∧ record !! "ASIC_Gazette_url" = Some "")
  ∧ (∀ cell, cells !! 2 = Some cell →
       extract_links_try urljoin config cell = Exc →
       record !! "Business_Gazette_title" = Some ""
       ∧ record !! "Business_Gazette_url" = Some "")
  ∧ (∀ cell text, length cells = 4 → cells !! 3 = Some cell →
       extract_links_try urljoin config cell = Exc →
       cell_text cell = Val text →
       record !! "Other_Notes_title" = Some (_clean_text text)
       ∧ record !! "Other_Notes_url" = Some "")
  ∧ (∀ cell text, 5 ≤ length cells → cells !! 3 = Some cell →
       extract_links_try urljoin config cell = Exc →
       cell_text cell = Val text →
       record !! "Other_title" = Some (_clean_text text)
       ∧ record !! "Other_url" = Some "")
  ∧ (∀ cell text, cells !! 4 = Some cell →
       extract_links_try urljoin config cell = Exc →
       cell_text cell = Val text →
       record !! "Notes_title" = Some (_clean_text text)
       ∧ record !! "Notes_url" = Some "").
Proof.
  intros Htds Hsome.
  pose proof (extract_row_data_cases row year cols) as Hc. rewrite Htds in Hc.
  destruct cells as [|c0 [|c1 [|c2 [|c3 rest]]]]; try congruence.
  destruct (cell_text c0) as [text0|]; [|congruence].
  destruct (cell_text c3) as [text3|] eqn:H3; [|congruence].
  destruct (row_head_base year text0 c1 c2 cols) as (Ha1 & Ha2 & Hb1 & Hb2).
  cbv zeta in Hc. destruct rest as [|c4 rest].
  - rewrite Hc in Hsome. injection Hsome as <-.
    destruct (store_text_cell_base "Other_Notes" c3 text3
                (row_head urljoin config year text0 c1 c2 cols)) as [Ht Hu].
    split; [|split; [|split; [|split]]].
    + intros cell [= <-] Hexc. rewrite (extract_links_raise _ Hexc) in Ha1, Ha2.
      by rewrite !store_text_cell_other by done.
    + intros cell [= <-] Hexc. rewrite (extract_links_raise _ Hexc) in Hb1, Hb2.
      by rewrite !store_text_cell_other by done.
    + intros cell text _ [= <-] Hexc Htext.
      rewrite (extract_links_raise _ Hexc) in Ht, Hu.
      rewrite text_over_no_title in Ht.
      rewrite H3 in Htext. injection Htext as <-. by split.
    + intros cell text Hlen. simpl in Hlen. lia.
    + intros cell text [=].
  - destruct (cell_text c4) as [text4|] eqn:H4; [|congruence].
    rewrite Hc in Hsome. injection Hsome as <-.
    destruct (store_text_cell_base "Other" c3 text3
                (row_head urljoin config year text0 c1 c2 cols)) as [Ht3 Hu3].
    destruct (store_text_cell_base "Notes" c4 text4
                (store_text_cell urljoin config "Other" c3 text3
                   (row_head urljoin config year text0 c1 c2 cols)))
      as [Ht4 Hu4].
    split; [|split; [|split; [|split]]].
    + intros cell [= <-] Hexc. rewrite (extract_links_raise _ Hexc) in Ha1, Ha2.
      by rewrite !store_text_cell_other by done.
    + intros cell [= <-] Hexc. rewrite (extract_links_raise _ Hexc) in Hb1, Hb2.
      by rewrite !store_text_cell_other by done.
    + intros cell text Hlen. simpl in Hlen. lia.
    + intros cell text _ [= <-] Hexc Htext.
      rewrite (extract_links_raise _ Hexc) in Ht3, Hu3.
      rewrite text_over_no_title in Ht3.
      rewrite H3 in Htext. injection Htext as <-.
      split; (rewrite store_text_cell_other by done); [exact Ht3|exact Hu3].
    + intros cell text [= <-] Hexc Htext.
      rewrite (extract_links_raise _ Hexc) in Ht4, Hu4.
      rewrite text_over_no_title in Ht4.
      rewrite H4 in Htext. injection Htext as <-. by split.
Qed.

(** C5, as the code has it.  A row of fewer than four cells yields no record.
    When the reading of the cells of the row, of the text of its cell 0 or of
    the text of an Other/Notes cell (cell 3, and cell 4 of a row of five or
    more cells) raises, no record is yielded.  Every record yielded maps
    [Year] to the partition key and [Date] to the cleaned text of cell 0, and
    holds the base pair of columns of each group of its layout.  What raises
    while the links of a cell are read is caught in
    [_extract_multiple_links_data] and does not stop the record: a record is
    yielded as soon as the cells of the row and the texts of the cells 0, 3
    and 4 are read, and in it the group of a cell whose links could not be
    read is empty. *)
Theorem extract_row_data_complete row year cols :
  let result := (_extract_row_data urljoin config row year cols).1 in
  (∀ cells, row_tds row = Val cells → length cells < 4 → result = None)
  ∧ (row_tds row = Exc → result = None)
  ∧ (∀ cells i cell,
       row_tds row = Val cells → cells !! i = Some cell →
       i = 0 ∨ i = 3 ∨ i = 4 → cell_text cell = Exc → result = None)
  ∧ (∀ record, result = Some record →
       ∃ cells cell0 text0,
         row_tds row = Val cells ∧ 4 ≤ length cells
         ∧ cells !! 0 = Some cell0 ∧ cell_text cell0 = Val text0
         ∧ record !! "Year" = Some year
         ∧ record !! "Date" = Some (_clean_text text0)
         ∧ has_group "ASIC_Gazette" record
         ∧ has_group "Business_Gazette" record
         ∧ (length cells = 4 → has_group "Other_Notes" record)
         ∧ (5 ≤ length cells →
            has_group "Other" record ∧ has_group "Notes" record))
  ∧ (∀ cells cell0 cell3 text0 text3,
       row_tds row = Val cells → 4 ≤ length cells →
       cells !! 0 = Some cell0 → cell_text cell0 = Val text0 →
       cells !! 3 = Some cell3 → cell_text cell3 = Val text3 →
       (∀ cell4, cells !! 4 = Some cell4 → cell_text cell4 ≠ Exc) →
       is_Some result)
  ∧ (∀ cells record, row_tds row = Val cells → result = Some record →
       (∀ cell, cells !! 1 = Some cell →
          extract_links_try urljoin config cell = Exc →
          record !! "ASIC_Gazette_title" = Some ""
          ∧ record !! "ASIC_Gazette_url" = Some "")
       ∧ (∀ cell, cells !! 2 = Some cell →
            extract_links_try urljoin config cell = Exc →
            record !! "Business_Gazette_title" = Some ""
            ∧ record !! "Business_Gazette_url" = Some "")
       ∧ (∀ cell text, length cells = 4 → cells !! 3 = Some cell →
            extract_links_try urljoin config cell = Exc →
            cell_text cell = Val text →
            record !! "Other_Notes_title" = Some (_clean_text text)
            ∧ record !! "Other_Notes_url" = Some "")
       ∧ (∀ cell text, 5 ≤ length cells → cells !! 3 = Some cell →
            extract_links_try urljoin config cell = Exc →
            cell_text cell = Val text →
            record !! "Other_title" = Some (_clean_text text)
            ∧ record !! "Other_url" = Some "")
       ∧ (∀ cell text, cells !! 4 = Some cell →
            extract_links_try urljoin config cell = Exc →
            cell_text cell = Val text →
            record !! "Notes_title" = Some (_clean_text text)
            ∧ record !! "Notes_url" = Some "")).
Proof.
  intros result. split; [|split; [|split; [|split; [|split]]]].
  - intros cells. apply extract_row_data_short.
  - intros Htds. apply extract_row_data_raise. by left.
  - intros cells i cell Htds Hi Hcase Htext.
    apply extract_row_data_raise. right. by exists cells, i, cell.
  - intros record. apply extract_row_data_Some.
  - intros cells cell0 cell3 text0 text3. apply extract_row_data_yields.
  - intros cells record. apply extract_row_data_absorbs.
Qed.

(** C6. In a row of four cells the cell 3, stored under [Other_Notes], and in
    a row of five or more cells the cell 3, stored under [Other], and the
    cell 4, stored under [Notes], each follow the text rule: with a non-empty
    cleaned text and an empty link group, the text is the sole title and its
    url is empty; with a non-empty cleaned text and a non-empty group, the
    text replaces the title of the first element, the titles of the later
    elements and all the urls being those of the group. *)
Theorem other_notes_text_rule row year cols cells record :
  row_tds row = Val cells →
  (_extract_row_data urljoin config row year cols).1 = Some record →
  (length cells = 4 →
     ∃ cell3 text3,
       cells !! 3 = Some cell3 ∧ cell_text cell3 = Val text3
       ∧ text_rule "Other_Notes" (_clean_text text3)
           (_extract_multiple_links_data urljoin config cell3) record)
  ∧ (5 ≤ length cells →
     ∃ cell3 text3 cell4 text4,
       cells !! 3 = Some cell3 ∧ cell_text cell3 = Val text3
       ∧ cells !! 4 = Some cell4 ∧ cell_text cell4 = Val text4
       ∧ text_rule "Other" (_clean_text text3)
           (_extract_multiple_links_data urljoin config cell3) record
       ∧ text_rule "Notes" (_clean_text text4)
           (_extract_multiple_links_data urljoin config cell4) record).
Proof.
  intros Htds Hsome.
  pose proof (extract_row_data_cases row year cols) as Hc. rewrite Htds in Hc.
  destruct cells as [|c0 [|c1 [|c2 [|c3 rest]]]]; try congruence.
  destruct (cell_text c0) as [text0|]; [|congruence].
  destruct (cell_text c3) as [text3|] eqn:H3; [|congruence].
  cbv zeta in Hc. destruct rest as [|c4 rest].
  - rewrite Hc in Hsome. injection Hsome as <-.
    split; [intros _|simpl; lia].
    exists c3, text3. split; [done|]. split; [done|].
    apply store_text_cell_rule. intros k. apply row_head_fresh. by left.
  - destruct (cell_text c4) as [text4|] eqn:H4; [|congruence].
    rewrite Hc in Hsome. injection Hsome as <-.
    split; [simpl; lia|intros _].
    exists c3, text3, c4, text4. do 4 (split; [done|]). split.
    + eapply text_rule_agree.
      * intros k [k' ->]%prefix_head. by apply store_text_cell_other.
      * apply store_text_cell_rule. intros k. apply row_head_fresh. by left.
    + apply store_text_cell_rule. intros k Hk.
      pose proof Hk as [k' ->]%prefix_head.
      rewrite store_text_cell_other by done.
      revert Hk. apply row_head_fresh. by right.
Qed.

End extract_row.

(** C5 as the specification states it fails: the links of the second cell of
    [row_2015_stale] cannot be read, and a record comes out of the row, its
    [ASIC_Gazette] pair empty. *)
Lemma extract_row_data_link_failure_yields :
  (∃ cells cell,
     row_tds row_2015_stale = Val cells ∧ cells !! 1 = Some cell
     ∧ cell_links cell = Exc)
  ∧ (_extract_row_data urljoin_concat asic_config row_2015_stale "2015" []).1
    = Some record_2015_stale.
Proof. split; [|reflexivity]. eexists _, _. repeat split; reflexivity. Qed.

Lemma extract_row_data_complete_witness :
  (_extract_row_data urljoin_concat asic_config row_2015 "2015" []).1
    = Some record_2015
  ∧ (∃ cells cell0 text0,
      row_tds row_2015 = Val cells ∧ 4 ≤ length cells
      ∧ cells !! 0 = Some cell0 ∧ cell_text cell0 = Val text0
      ∧ record_2015 !! "Year" = Some "2015"
      ∧ record_2015 !! "Date" = Some (_clean_text text0)
      ∧ has_group "ASIC_Gazette" record_2015
      ∧ has_group "Business_Gazette" record_2015
      ∧ (length cells = 4 → has_group "Other_Notes" record_2015)
      ∧ (5 ≤ length cells →
         has_group "Other" record_2015 ∧ has_group "Notes" record_2015))
  ∧ (_extract_row_data urljoin_concat asic_config row_2015_stale "2015" []).1
    = Some record_2015_stale
  ∧ extract_links_try urljoin_concat asic_config
      {| cell_text := Val "15/123"; cell_links := Exc |} = Exc
  ∧ record_2015_stale !! "ASIC_Gazette_title" = Some ""
  ∧ record_2015_stale !! "ASIC_Gazette_url" = Some "".
Proof.
  split; [reflexivity|]. split.
  { apply (extract_row_data_complete urljoin_concat asic_config row_2015
             "2015" []).
    reflexivity. }
  split; [reflexivity|]. split; [reflexivity|].
  destruct (extract_row_data_complete urljoin_concat asic_config
              row_2015_stale "2015" []) as (_ & _ & _ & _ & _ & Habsorb).
  destruct (Habsorb _ record_2015_stale eq_refl eq_refl) as (Hasic & _).
  exact (Hasic _ eq_refl eq_refl).
Defined.

Lemma other_notes_text_rule_witness :
  row_tds row_2015 = Val [a_cell "01/03/2015" [];
                          a_cell "15/123" [a_link "15/123" "/gaz/123"];
                          a_cell "N/A" [];
                          a_cell "Correction notice" [a_link "see doc" "/doc/5"]]
  ∧ (_extract_row_data urljoin_concat asic_config row_2015 "2015" []).1
    = Some record_2015
  ∧ record_2015 !! "Other_Notes_title" = Some "Correction notice"
  ∧ record_2015 !! "Other_Notes_url" = Some "https://asic.gov.au/doc/5".
Proof.
  split; [reflexivity|]. split; [reflexivity|].
  destruct (other_notes_text_rule urljoin_concat asic_config row_2015 "2015" []
              _ record_2015 eq_refl eq_refl) as [H4 _].
  destruct (H4 eq_refl) as (cell3 & text3 & Hcell & Htext & Hrule).
  injection Hcell as <-. injection Htext as <-.
  destruct (Hrule ltac:(discriminate)) as (Htitle & _ & Hurl).
  split; [exact Htitle|]. exact (Hurl 0 _ eq_refl).
Defined.

(** ** [_normalize_row_data] *)

Lemma normalize_foldl_lookup (row_data normalized : gmap string string) headers k :
  foldl (λ normalized header,
           <[header := default "" (row_data !! header)]> normalized)
        normalized headers !! k
  = if decide (k ∈ headers) then Some (default "" (row_data !! k))
    else normalized !! k.
Proof.
  revert normalized. induction headers as [|h headers IH]; intros normalized; simpl.
  - destruct (decide (k ∈ [])) as [Hin|]; [by apply elem_of_nil in Hin|done].
  - rewrite IH.
    destruct (decide (k ∈ headers)) as [H1|H1],
             (decide (k ∈ h :: headers)) as [H2|H2]; try done.
    + exfalso. apply H2. by right.
    + apply elem_of_cons in H2 as [->|]; [by rewrite lookup_insert_eq|done].
    + rewrite lookup_insert_ne; [done|]. intros ->. apply H2. by left.
Qed.

Lemma normalize_lookup (row_data : gmap string string) headers k :
  _normalize_row_data row_data headers !! k
  = if decide (k ∈ headers) then Some (default "" (row_data !! k)) else None.
Proof. unfold _normalize_row_data. by rewrite normalize_foldl_lookup. Qed.

(** C9. The normalized record maps a header to the value of the record for
    it, or to the empty string when the record has none, and holds no other
    key; normalizing it again against the same headers changes nothing. *)
Theorem normalize_row_data_idempotent (row_data : gmap string string)
    (headers : list string) :
  (∀ header, header ∈ headers →
     _normalize_row_data row_data headers !! header
     = Some (default "" (row_data !! header)))
  ∧ (∀ key, key ∉ headers → _normalize_row_data row_data headers !! key = None)
  ∧ _normalize_row_data (_normalize_row_data row_data headers) headers
    = _normalize_row_data row_data headers.
Proof.
  split; [|split].
  - intros header Hin. rewrite normalize_lookup. by destruct (decide _).
  - intros key Hin. rewrite normalize_lookup. by destruct (decide _).
  - apply map_eq. intros k. rewrite !normalize_lookup.
    by destruct (decide (k ∈ headers)).
Qed.

Lemma normalize_row_data_idempotent_witness :
  ("Date" ∈ ["Year"; "Date"; "Notes_title"])
  ∧ ("Other_Notes_url" ∉ ["Year"; "Date"; "Notes_title"])
  ∧ _normalize_row_data record_2015 ["Year"; "Date"; "Notes_title"] !! "Date"
    = Some "01/03/2015"
  ∧ _normalize_row_data record_2015 ["Year"; "Date"; "Notes_title"]
      !! "Other_Notes_url" = None.
Proof.
  assert ("Date" ∈ ["Year"; "Date"; "Notes_title"]) as Hin
    by (refine (bool_decide_unpack _ _); vm_compute; exact I).
  assert ("Other_Notes_url" ∉ ["Year"; "Date"; "Notes_title"]) as Hout
    by (refine (bool_decide_unpack _ _); vm_compute; exact I).
  split; [exact Hin|]. split; [exact Hout|].
  destruct (normalize_row_data_idempotent record_2015
              ["Year"; "Date"; "Notes_title"]) as (Hhas & Hnot & _).
  split; [exact (Hhas _ Hin)|exact (Hnot _ Hout)].
Defined.

(** ** [_generate_dynamic_headers] *)

Lemma elem_of_set_add x y s : y ∈ Py.set_add x s ↔ y = x ∨ y ∈ s.
Proof.
  unfold Py.set_add. destruct (decide (x ∈ s)).
  - split; [by right|]. by intros [->|].
  - rewrite elem_of_app, list_elem_of_singleton. tauto.
Qed.

Lemma set_add_NoDup x s : NoDup s → NoDup (Py.set_add x s).
Proof.
  intros Hs. unfold Py.set_add. destruct (decide (x ∈ s)); [done|].
  apply NoDup_app. split; [done|]. split; [|apply NoDup_singleton].
  intros y Hy ->%list_elem_of_singleton. done.
Qed.

Lemma register_from keys : ∀ cols,
  NoDup cols →
  NoDup (foldl (λ cols key, Py.set_add key cols) cols keys)
  ∧ ∀ k, k ∈ foldl (λ cols key, Py.set_add key cols) cols keys
         ↔ k ∈ cols ∨ k ∈ keys.
Proof.
  induction keys as [|key keys IH]; intros cols Hnd; simpl.
  - split; [done|]. intros k. rewrite elem_of_nil. tauto.
  - destruct (IH (Py.set_add key cols)) as [IH1 IH2]; [by apply set_add_NoDup|].
    split; [done|]. intros k.
    rewrite IH2, elem_of_set_add, elem_of_cons. tauto.
Qed.

Lemma register_all_NoDup keys : NoDup (register_all keys).
Proof. apply register_from. constructor. Qed.

Lemma elem_of_register_all keys k : k ∈ register_all keys ↔ k ∈ keys.
Proof.
  unfold register_all. destruct (register_from keys []) as [_ ->]; [constructor|].
  rewrite elem_of_nil. tauto.
Qed.

Lemma sorted_Sorted l : Sorted String.le (Py.sorted l).
Proof. apply (Sorted_merge_sort String.le). Qed.

Lemma sorted_Permutation l : Py.sorted l ≡ₚ l.
Proof. apply merge_sort_Permutation. Qed.

Lemma sorted_perm_eq l1 l2 : l1 ≡ₚ l2 → Py.sorted l1 = Py.sorted l2.
Proof.
  intros Hp. apply (Sorted_unique String.le); try apply sorted_Sorted.
  by rewrite !sorted_Permutation.
Qed.

Lemma sorted_filter_perm_eq (P : string → Prop) `{!∀ x, Decision (P x)} l1 l2 :
  l1 ≡ₚ l2 → Py.sorted (filter P l1) = Py.sorted (filter P l2).
Proof. intros Hp. apply sorted_perm_eq. by rewrite Hp. Qed.

Lemma generate_dynamic_headers_perm cols1 cols2 :
  cols1 ≡ₚ cols2 →
  _generate_dynamic_headers cols1 = _generate_dynamic_headers cols2.
Proof.
  intros Hp. unfold _generate_dynamic_headers. cbv zeta.
  rewrite !(sorted_filter_perm_eq _ cols1 cols2 Hp). done.
Qed.

(** C7. The header list depends on the set of the registered keys only: two
    sequences of registrations with the same keys, in any order and with any
    repetition, give the same header list. *)
Theorem generate_dynamic_headers_order_independent (keys1 keys2 : list string) :
  (∀ key, key ∈ keys1 ↔ key ∈ keys2) →
  _generate_dynamic_headers (register_all keys1)
  = _generate_dynamic_headers (register_all keys2).
Proof.
  intros Hsame. apply generate_dynamic_headers_perm.
  apply NoDup_Permutation; try apply register_all_NoDup.
  intros k. by rewrite !elem_of_register_all.
Qed.

Lemma generate_dynamic_headers_order_independent_witness :
  (∀ key, key ∈ keys_seen ↔ key ∈ keys_seen_again)
  ∧ _generate_dynamic_headers (register_all keys_seen)
    = _generate_dynamic_headers (register_all keys_seen_again).
Proof.
  assert (∀ key, key ∈ keys_seen ↔ key ∈ keys_seen_again) as Hsame.
  { intros key. unfold keys_seen, keys_seen_again.
    rewrite !elem_of_cons, !elem_of_nil. tauto. }
  split; [exact Hsame|].
  exact (generate_dynamic_headers_order_independent _ _ Hsame).
Defined.

Lemma sorted_filter_block keys cols (P : string → Prop) `{!∀ x, Decision (P x)} :
  NoDup cols → (∀ k, k ∈ cols ↔ k ∈ keys) →
  sorted_block keys P (Py.sorted (filter P cols)).
Proof.
  intros Hnd Hel. split; [apply sorted_Sorted|]. split.
  - rewrite sorted_Permutation. by apply NoDup_filter.
  - intros k. rewrite sorted_Permutation, list_elem_of_filter, Hel. tauto.
Qed.

Lemma sorted_block_iff keys (P Q : string → Prop) block :
  (∀ k, P k ↔ Q k) → sorted_block keys P block → sorted_block keys Q block.
Proof.
  intros HPQ (Hs & Hnd & Hel). split; [done|]. split; [done|].
  intros k. by rewrite Hel, HPQ.
Qed.

Lemma startswith_head c p k :
  Py.startswith (String c p) k → ∃ k', k = String c k'.
Proof. intros H%Is_true_true. by apply prefix_head in H. Qed.

Ltac block_fact H :=
  match type of H with
  | _ ∈ [] => by apply elem_of_nil in H
  | _ ∈ _ :: _ => apply elem_of_cons in H as [->|H]; [|block_fact H]
  | _ ∈ ?b =>
      match goal with
      | Hb : sorted_block _ _ b |- _ => apply (proj2 (proj2 Hb)) in H as [_ H]
      end
  end.

Ltac block_head H :=
  repeat match type of H with
  | _ ∧ _ => let H1 := fresh in destruct H as [H H1]
  end;
  try match type of H with
  | Is_true (Py.startswith (String _ _) ?k) =>
      is_var k; let E := fresh in
      destruct (startswith_head _ _ _ H) as [? E]; subst k
  end.

(** C8. The header list of any sequence of registrations has no duplicate,
    holds every registered key, and is [Year], [Date], then the registered
    keys that start with [ASIC_Gazette], those that start with
    [Business_Gazette], those that start with [Other] and not with
    [Other_Notes], those that start with [Notes], those that start with
    [Other_Notes], and last the registered keys not placed so far, each of
    these blocks in ascending order. *)
Theorem generate_dynamic_headers_layout (keys : list string) :
  let headers := _generate_dynamic_headers (register_all keys) in
  NoDup headers
  ∧ (∀ key, key ∈ keys → key ∈ headers)
  ∧ ∃ asic business other_only notes other_notes remaining,
      headers = ["Year"; "Date"] ++ asic ++ business ++ other_only
                  ++ notes ++ other_notes ++ remaining
      ∧ sorted_block keys (λ k, Py.startswith "ASIC_Gazette" k) asic
      ∧ sorted_block keys (λ k, Py.startswith "Business_Gazette" k) business
      ∧ sorted_block keys
          (λ k, Py.startswith "Other" k ∧ ¬ Py.startswith "Other_Notes" k)
          other_only
      ∧ sorted_block keys (λ k, Py.startswith "Notes" k) notes
      ∧ sorted_block keys (λ k, Py.startswith "Other_Notes" k) other_notes
      ∧ sorted_block keys
          (λ k, k ∉ ["Year"; "Date"] ++ asic ++ business ++ other_only
                      ++ notes ++ other_notes)
          remaining.
Proof.
  intros headers. subst headers.
  pose proof (register_all_NoDup keys) as Hnd.
  pose proof (elem_of_register_all keys) as Hel.
  unfold _generate_dynamic_headers. cbv zeta. rewrite <- !app_assoc.
  set (cols := register_all keys) in *.
  set (asic := Py.sorted (filter _ cols)).
  set (business := Py.sorted (filter _ cols)).
  set (other_only := Py.sorted (filter _ cols)).
  set (notes := Py.sorted (filter _ cols)).
  set (other_notes := Py.sorted (filter _ cols)).
  set (placed := ["Year"; "Date"] ++ asic ++ business ++ other_only ++ notes ++ other_notes).
  set (remaining := Py.sorted (filter _ cols)).
  assert (sorted_block keys (λ k, Py.startswith "ASIC_Gazette" k) asic) as Ba
    by (by apply sorted_filter_block).
  assert (sorted_block keys (λ k, Py.startswith "Business_Gazette" k) business) as Bb
    by (by apply sorted_filter_block).
  assert (sorted_block keys
            (λ k, Py.startswith "Other" k ∧ ¬ Py.startswith "Other_Notes" k)
            other_only) as Boo.
  { eapply sorted_block_iff; [|by apply sorted_filter_block].
    intros k. simpl. rewrite andb_True, negb_True. done. }
  assert (sorted_block keys (λ k, Py.startswith "Notes" k) notes) as Bn
    by (by apply sorted_filter_block).
  assert (sorted_block keys (λ k, Py.startswith "Other_Notes" k) other_notes) as Bon
    by (by apply sorted_filter_block).
  assert (sorted_block keys (λ k, k ∉ placed) remaining) as Br
    by (by apply sorted_filter_block).
  clearbody asic business other_only notes other_notes remaining.
  split; [|split].
  - repeat (apply NoDup_app; split; [|split]);
      try (by apply Ba || by apply Bb || by apply Boo || by apply Bn
           || by apply Bon || by apply Br).
    1: { apply NoDup_cons. split; [|apply NoDup_singleton].
         by intros ?%list_elem_of_singleton. }
    all: intros k Hk Hk';
      assert (k ∈ placed) as Hplaced
        by (unfold placed; rewrite !elem_of_app; tauto);
      rewrite ?elem_of_app in Hk';
      repeat match goal with H : _ ∨ _ |- _ => destruct H as [H|H] end;
      block_fact Hk'; try done;
      block_fact Hk; block_head Hk; block_head Hk'; simpl in *; tauto.
  - intros key Hkey. rewrite !elem_of_app.
    destruct (decide (key ∈ placed)) as [Hin|Hout].
    + unfold placed in Hin. rewrite !elem_of_app in Hin. tauto.
    + do 6 right. by apply Br.
  - by exists asic, business, other_only, notes, other_notes, remaining.
Qed.

Lemma generate_dynamic_headers_layout_witness :
  ("Zed" ∈ keys_seen)
  ∧ ("Zed" ∈ _generate_dynamic_headers (register_all keys_seen)).
Proof.
  assert ("Zed" ∈ keys_seen) as Hin by (by left).
  split; [exact Hin|].
  exact (proj1 (proj2 (generate_dynamic_headers_layout keys_seen)) _ Hin).
Defined.

Example generate_dynamic_headers_keys_seen :
  _generate_dynamic_headers (register_all keys_seen)
  = ["Year"; "Date"; "ASIC_Gazette_title"; "ASIC_Gazette_url";
     "Business_Gazette_title_10"; "Business_Gazette_title_2";
     "Other_title"; "Notes_url"; "Other_Notes_title"; "Zed"].
Proof. by vm_compute. Qed.

(** ** [_find_correct_table_for_year] *)

Lemma total_links_app texts1 texts2 :
  total_links (texts1 ++ texts2) = total_links texts1 + total_links texts2.
Proof. unfold total_links. by rewrite filter_app, length_app. Qed.

Lemma matched_links_app suffix texts1 texts2 :
  matched_links suffix (texts1 ++ texts2)
  = matched_links suffix texts1 + matched_links suffix texts2.
Proof. unfold matched_links. by rewrite filter_app, length_app. Qed.

Lemma contains_slash_truthy text :
  Py.contains "/" text = true → Py.truthy text = true.
Proof. by destruct text. Qed.

Lemma score_link_texts suffix m n link :
  score_link suffix (m, n) link
  = text ← link_text link;
    mret (m + matched_links suffix [_clean_text text],
          n + total_links [_clean_text text]).
Proof.
  unfold score_link. destruct (link_text link) as [text|]; [|done].
  cbn [mbind exc_bind]. unfold matched_links, total_links.
  rewrite !filter_cons, !filter_nil.
  destruct (Py.contains "/" (_clean_text text)) eqn:Hc.
  - rewrite (contains_slash_truthy _ Hc). cbn [andb].
    destruct (Py.endswith ("/" +:+ suffix) (_clean_text text)) eqn:He.
    + by rewrite !decide_True by done.
    + rewrite decide_False by (by intros [_ ?]).
      rewrite decide_True by done. by rewrite Nat.add_0_r.
  - rewrite andb_false_r.
    rewrite !decide_False by (try intros [? _]; done).
    by rewrite !Nat.add_0_r.
Qed.

Lemma foldE_score_link suffix links : ∀ m n,
  foldE (score_link suffix) (m, n) links
  = texts ← mapE (λ link, text ← link_text link; mret (_clean_text text)) links;
    mret (m + matched_links suffix texts, n + total_links texts).
Proof.
  induction links as [|link links IH]; intros m n.
  - simpl. by rewrite !Nat.add_0_r.
  - cbn [foldE mapE]. rewrite score_link_texts.
    destruct (link_text link) as [text|]; [|done]. cbn [mbind exc_bind mret exc_ret].
    rewrite IH.
    destruct (mapE _ links) as [texts|]; [|done]. cbn [mbind exc_bind mret exc_ret].
    change (_clean_text text :: texts) with ([_clean_text text] ++ texts).
    by rewrite matched_links_app, total_links_app, !Nat.add_assoc.
Qed.

Lemma score_cell_texts suffix m n cell :
  (links ← cell_links cell; foldE (score_link suffix) (m, n) links)
  = texts ← cell_link_texts cell;
    mret (m + matched_links suffix texts, n + total_links texts).
Proof.
  unfold cell_link_texts. destruct (cell_links cell) as [links|]; [|done].
  cbn [mbind exc_bind]. apply foldE_score_link.
Qed.

Lemma score_row_texts suffix m n row :
  score_row suffix (m, n) row
  = texts ← row_link_texts row;
    mret (m + matched_links suffix texts, n + total_links texts).
Proof.
  unfold score_row, row_link_texts.
  destruct (row_tds row) as [cells|]; [|done]. cbn [mbind exc_bind].
  destruct cells as [|cell0 [|cell1 rest]];
    [simpl; by rewrite !Nat.add_0_r..|].
  cbn [length Nat.leb item lookup list_lookup mbind exc_bind].
  destruct (cell_links cell1) as [links|] eqn:H1.
  2: { unfold cell_link_texts. by rewrite H1. }
  cbn [mbind exc_bind].
  pose proof (score_cell_texts suffix m n cell1) as Hcell1.
  rewrite H1 in Hcell1. cbn [mbind exc_bind] in Hcell1. rewrite Hcell1.
  destruct (cell_link_texts cell1) as [texts1|]; [|done].
  cbn [mbind exc_bind mret exc_ret].
  destruct rest as [|cell2 rest]; [done|].
  cbn [length Nat.leb item lookup list_lookup mbind exc_bind].
  rewrite score_cell_texts.
  destruct (cell_link_texts cell2) as [texts2|]; [|done].
  cbn [mbind exc_bind mret exc_ret].
  by rewrite matched_links_app, total_links_app, !Nat.add_assoc.
Qed.

Lemma foldE_score_row suffix rows : ∀ m n,
  foldE (score_row suffix) (m, n) rows
  = texts ← mapE row_link_texts rows;
    mret (m + matched_links suffix (concat texts),
          n + total_links (concat texts)).
Proof.
  induction rows as [|row rows IH]; intros m n.
  - simpl. by rewrite !Nat.add_0_r.
  - cbn [foldE mapE]. rewrite score_row_texts.
    destruct (row_link_texts row) as [texts|]; [|done].
    cbn [mbind exc_bind mret exc_ret]. rewrite IH.
    destruct (mapE row_link_texts rows) as [textss|]; [|done].
    cbn [mbind exc_bind mret exc_ret concat].
    by rewrite matched_links_app, total_links_app, !Nat.add_assoc.
Qed.

Lemma selects_spec m n :
  selects m n = true
  ↔ (7 # 10 < inject_Z (Z.of_nat m) / inject_Z (Z.of_nat n))%Q ∧ 5 < n.
Proof.
  unfold selects, match_percentage. destruct n as [|n].
  - split; [done|]. intros [_ ?]. lia.
  - change (0 <? S n) with true. cbv iota.
    set (ratio := (inject_Z (Z.of_nat m) / inject_Z (Z.of_nat (S n)))%Q).
    destruct (ratio * 100 ?= 70)%Q eqn:E.
    + apply Qeq_alt in E. split; [done|]. intros [H _]. lra.
    + apply Qlt_alt in E. split; [done|]. intros [H _]. lra.
    + apply Qgt_alt in E. rewrite Nat.ltb_lt. split.
      * intros H. split; [lra|done].
      * by intros [_ H].
Qed.

Lemma tests_agree_200 : tests_agree_up_to 200 = true.
Proof. vm_cast_no_check (eq_refl true). Qed.

Lemma tests_agree_sound bound m n :
  tests_agree_up_to bound = true → m ≤ n → n ≤ bound →
  selects_binary64 m n = selects m n.
Proof.
  unfold tests_agree_up_to. intros H Hm Hn.
  rewrite forallb_forall in H. specialize (H n).
  rewrite forallb_forall in H.
  apply Bool.eqb_prop, H; apply in_seq; lia.
Qed.

(** The exact test and the binary64 test of the source select the same
    tables, for counters up to 200 links. *)
Lemma selects_binary64_agrees m n :
  m ≤ n → n ≤ 200 → selects_binary64 m n = selects m n.
Proof. exact (tests_agree_sound 200 m n tests_agree_200). Qed.

Lemma table_counts_texts suffix table :
  table_counts suffix table
  = rows ← table_trs table;
    data_rows ← filterE is_data_row rows;
    match data_rows with
    | [] => mret None
    | _ :: _ =>
        texts ← mapE row_link_texts (take 10 data_rows);
        mret (Some (matched_links suffix (concat texts),
                    total_links (concat texts)))
    end.
Proof.
  unfold table_counts. destruct (table_trs table) as [rows|]; [|done].
  cbn [mbind exc_bind].
  destruct (filterE is_data_row rows) as [[|row data_rows]|]; [done| |done].
  cbn [mbind exc_bind]. rewrite foldE_score_row.
  by destruct (mapE row_link_texts (take 10 (row :: data_rows))).
Qed.

Lemma table_selected_qualifies year table :
  table_selected (Py.last_chars 2 year) table = true ↔ qualifies year table.
Proof.
  unfold table_selected, qualifies, sampled_link_texts.
  rewrite table_counts_texts.
  destruct (table_trs table) as [rows|]; [|done]. cbn [mbind exc_bind].
  destruct (filterE is_data_row rows) as [[|row data_rows]|]; [| |done].
  - cbn. split; [done|]. intros [_ H]. unfold total_links in H. simpl in H. lia.
  - cbn [mbind exc_bind].
    destruct (mapE row_link_texts (take 10 (row :: data_rows))) as [texts|];
      [|done].
    cbn [mbind exc_bind mret exc_ret]. apply selects_spec.
Qed.

Lemma select_table_first suffix tables :
  match select_table suffix tables with
  | Some table =>
      ∃ i, tables !! i = Some table
           ∧ table_selected suffix table = true
           ∧ ∀ j t, j < i → tables !! j = Some t → table_selected suffix t = false
  | None => ∀ t, t ∈ tables → table_selected suffix t = false
  end.
Proof.
  induction tables as [|table tables IH]; simpl.
  - intros t Ht. by apply elem_of_nil in Ht.
  - assert (select_table suffix (table :: tables)
            = if table_selected suffix table then Some table
              else select_table suffix tables) as Hstep.
    { unfold table_selected. simpl.
      destruct (table_counts suffix table) as [[[m n]|]|]; done. }
    simpl in Hstep. rewrite Hstep.
    destruct (table_selected suffix table) eqn:Hsel.
    + exists 0. split; [done|]. split; [done|]. intros j t Hj. lia.
    + destruct (select_table suffix tables) as [found|].
      * destruct IH as (i & Hi & Hfound & Hbefore).
        exists (S i). split; [done|]. split; [done|].
        intros [|j] t Hj Ht; simpl in Ht; [by simplify_eq|].
        apply (Hbefore j); [lia|done].
      * intros t [->|Ht]%elem_of_cons; [done|]. by apply IH.
Qed.

(** C1. Among the visible tables, taken in the order of the page, the table
    returned is the first that qualifies: the one at the least index whose
    sample (the cells of index 1, and of index 2 when present, of its first 10
    non-header rows) has more than 5 links with a slash in their cleaned text
    and more than 0.70 of them ending with the slash and the last two
    characters of the partition key. *)
Theorem find_table_first_qualifying (all_tables visible_tables : list Table)
    (year : string) (i : nat) (table : Table) :
  filterE is_displayed all_tables = Val visible_tables →
  visible_tables !! i = Some table →
  qualifies year table →
  (∀ j t, j < i → visible_tables !! j = Some t → ¬ qualifies year t) →
  _find_correct_table_for_year (Val all_tables) year = Some table.
Proof.
  intros Hvis Hi Hq Hfirst.
  unfold _find_correct_table_for_year. cbn [mbind exc_bind]. rewrite Hvis.
  unfold find_among.
  pose proof (select_table_first (Py.last_chars 2 year) visible_tables) as Hsel.
  apply table_selected_qualifies in Hq.
  destruct (select_table (Py.last_chars 2 year) visible_tables) as [found|].
  - destruct Hsel as (i' & Hi' & Hfound & Hbefore).
    destruct (Nat.lt_trichotomy i' i) as [Hlt|[->|Hgt]].
    + destruct (Hfirst i' found Hlt Hi'). by apply table_selected_qualifies.
    + congruence.
    + rewrite (Hbefore i table Hgt Hi) in Hq. done.
  - rewrite Hsel in Hq; [done|]. by eapply list_elem_of_lookup_2.
Qed.

(** C2. When no visible table qualifies, the partition key is looked up in
    the fixed table of ordinals: with an entry below the number of visible
    tables, the visible table at that ordinal is returned; with an entry at or
    above it, or with no entry, nothing is.  For the key 2018 and five visible
    tables, the table at index 3 is returned. *)
Theorem find_table_fallback (all_tables visible_tables : list Table)
    (year : string) :
  filterE is_displayed all_tables = Val visible_tables →
  (∀ t, t ∈ visible_tables → ¬ qualifies year t) →
  let found := _find_correct_table_for_year (Val all_tables) year in
  (∀ idx, year_to_table_index !! year = Some idx →
     idx < length visible_tables →
     is_Some found ∧ found = visible_tables !! idx)
  ∧ (∀ idx, year_to_table_index !! year = Some idx →
       length visible_tables ≤ idx → found = None)
  ∧ (year_to_table_index !! year = None → found = None)
  ∧ (year = "2018" → length visible_tables = 5 →
       is_Some found ∧ found = visible_tables !! 3).
Proof.
  intros Hvis Hnone found.
  assert (found = match year_to_table_index !! year with
                  | Some idx =>
                      if idx <? length visible_tables
                      then visible_tables !! idx else None
                  | None => None
                  end) as ->.
  { unfold found, _find_correct_table_for_year. cbn [mbind exc_bind].
    rewrite Hvis. unfold find_among.
    pose proof (select_table_first (Py.last_chars 2 year) visible_tables) as Hsel.
    destruct (select_table (Py.last_chars 2 year) visible_tables) as [t|];
      [|done].
    destruct Hsel as (i & Hi & Hsel & _).
    destruct (Hnone t); [by eapply list_elem_of_lookup_2|].
    by apply table_selected_qualifies. }
  assert (∀ idx, idx < length visible_tables →
            is_Some (if idx <? length visible_tables
                     then visible_tables !! idx else None)
            ∧ (if idx <? length visible_tables
               then visible_tables !! idx else None) = visible_tables !! idx)
    as Hin.
  { intros idx Hidx. rewrite (proj2 (Nat.ltb_lt _ _) Hidx).
    split; [by apply lookup_lt_is_Some_2|done]. }
  split; [|split; [|split]].
  - intros idx -> Hidx. by apply Hin.
  - intros idx -> Hidx. by rewrite (proj2 (Nat.ltb_ge _ _) Hidx).
  - by intros ->.
  - intros -> Hlen.
    change (year_to_table_index !! "2018") with (Some 3).
    apply Hin. lia.
Qed.

Lemma find_table_first_qualifying_witness :
  filterE is_displayed
    [table_short; table_hidden; table_2019; table_2020; table_2020_late]
  = Val [table_short; table_2019; table_2020; table_2020_late]
  ∧ qualifies "2020" table_2020
  ∧ qualifies "2020" table_2020_late
  ∧ ¬ qualifies "2020" table_short
  ∧ ¬ qualifies "2020" table_2019
  ∧ _find_correct_table_for_year
      (Val [table_short; table_hidden; table_2019; table_2020; table_2020_late])
      "2020"
    = Some table_2020.
Proof.
  assert (qualifies "2020" table_2020) as H2020
    by (apply table_selected_qualifies; vm_compute; reflexivity).
  assert (qualifies "2020" table_2020_late) as Hlate
    by (apply table_selected_qualifies; vm_compute; reflexivity).
  assert (¬ qualifies "2020" table_short) as Hshort
    by (intros H; apply table_selected_qualifies in H; vm_compute in H;
        discriminate H).
  assert (¬ qualifies "2020" table_2019) as H2019
    by (intros H; apply table_selected_qualifies in H; vm_compute in H;
        discriminate H).
  split; [reflexivity|]. do 4 (split; [assumption|]).
  apply (find_table_first_qualifying _
           [table_short; table_2019; table_2020; table_2020_late] "2020" 2);
    [reflexivity|reflexivity|exact H2020|].
  intros [|[|j]] t Hj Ht; [injection Ht as <-; exact Hshort
                          |injection Ht as <-; exact H2019|lia].
Defined.

Lemma find_table_fallback_witness :
  filterE is_displayed
    [table_short; table_2019; table_hidden; table_2020; table_2020_late;
     table_short]
  = Val [table_short; table_2019; table_2020; table_2020_late; table_short]
  ∧ (∀ t, t ∈ [table_short; table_2019; table_2020; table_2020_late; table_short]
          → ¬ qualifies "2018" t)
  ∧ _find_correct_table_for_year
      (Val [table_short; table_2019; table_hidden; table_2020; table_2020_late;
            table_short])
      "2018"
    = Some table_2020_late.
Proof.
  assert (∀ t, t ∈ [table_short; table_2019; table_2020; table_2020_late;
                    table_short] → ¬ qualifies "2018" t) as Hnone.
  { intros t Ht H. apply table_selected_qualifies in H.
    repeat (apply elem_of_cons in Ht as [->|Ht];
            [vm_compute in H; discriminate H|]).
    by apply elem_of_nil in Ht. }
  split; [reflexivity|]. split; [exact Hnone|].
  destruct (find_table_fallback
              [table_short; table_2019; table_hidden; table_2020;
               table_2020_late; table_short]
              [table_short; table_2019; table_2020; table_2020_late;
               table_short]
              "2018" eq_refl Hnone) as (_ & _ & _ & H2018).
  destruct (H2018 eq_refl eq_refl) as [_ Hfound]. exact Hfound.
Defined.
